(** * mksnapshot: the snapshot writer and the script loader

    A shallow embedding of [deps/v8/src/snapshot/mksnapshot.cc]: the class
    [SnapshotWriter], the function [GetExtraCode] and the driver [main].

    The C++ code talks to the operating system through [stdio]; the
    embedding threads an explicit [World] (files, standard streams, [errno],
    a log of the calls that touch the directory) through a small monad whose
    outcomes also record [exit] and [abort]. *)

From Stdlib Require Import ZArith NArith List Lia Bool.
From Stdlib.Strings Require Import String Ascii Byte.
From Stdlib Require Import DecimalString.
From stdpp Require Import gmap strings.

Open Scope string_scope.
Open Scope Z_scope.

(** ** Characters and text *)

Definition nl : string := String "010"%char EmptyString.
Definition dquote : string := String "034"%char EmptyString.

(** ** Machine integers *)

Definition INT_MAX : Z := 2147483647.

(** [int] arithmetic, two's complement on 32 bits. *)
Definition wrap_int (z : Z) : Z := (z + 2 ^ 31) mod 2 ^ 32 - 2 ^ 31.

(** [static_cast<size_t>] of an [int], on a 64 bit target. *)
Definition size_t_of_int (z : Z) : Z := z mod 2 ^ 64.

(** ** printf conversions *)

Definition digit_char (d : N) : ascii := ascii_of_N (48 + d).

(** Decimal digits of [n], most significant first, pushed in front of
    [acc]; ten rounds cover every 32-bit value. *)
Fixpoint fmt_digits (rounds : nat) (n : N) (acc : string) : string :=
  match rounds with
  | O => acc
  | S r =>
      let acc' := String (digit_char (n mod 10)) acc in
      if (n / 10 =? 0)%N then acc' else fmt_digits r (n / 10) acc'
  end.

(** ["%u"] applied to an [unsigned int]. *)
Definition fmt_u (n : N) : string := fmt_digits 10 (n mod 2 ^ 32) EmptyString.

(** ["%d"] applied to an [int]. *)
Definition fmt_d (z : Z) : string :=
  if z <? 0 then "-" ++ fmt_digits 10 (Z.to_N (- z)) EmptyString
  else fmt_digits 10 (Z.to_N z) EmptyString.

(** ** The world *)

Inductive Event :=
| EvFOpen (path mode : string)
| EvRemove (path : string).

(** The part of the world the program can observe or change.  The three
    last fields describe how the operating system answers: whether an open
    is refused (with which [errno]), how many of the bytes handed to one
    [fwrite] it accepts, and what one [fread] at a given offset does (an
    error with its [errno], or [inr k]: at most [k + 1] bytes delivered);
    [heap_fill] is what freshly allocated memory holds. *)
Record World := mkWorld {
  files : gmap string string;
  out : string;
  err : string;
  errno : Z;
  log : list Event;
  heap_fill : byte;
  os_fopen : string -> string -> option Z;
  os_fwrite : string -> nat -> nat;
  os_fread : string -> nat -> Z + nat
}.

Definition set_files (f : gmap string string -> gmap string string) (w : World) : World :=
  mkWorld (f (files w)) (out w) (err w) (errno w) (log w) (heap_fill w)
          (os_fopen w) (os_fwrite w) (os_fread w).
Definition set_out (f : string -> string) (w : World) : World :=
  mkWorld (files w) (f (out w)) (err w) (errno w) (log w) (heap_fill w)
          (os_fopen w) (os_fwrite w) (os_fread w).
Definition set_err (f : string -> string) (w : World) : World :=
  mkWorld (files w) (out w) (f (err w)) (errno w) (log w) (heap_fill w)
          (os_fopen w) (os_fwrite w) (os_fread w).
Definition set_errno (e : Z) (w : World) : World :=
  mkWorld (files w) (out w) (err w) e (log w) (heap_fill w)
          (os_fopen w) (os_fwrite w) (os_fread w).
Definition add_log (e : Event) (w : World) : World :=
  mkWorld (files w) (out w) (err w) (errno w) (log w ++ [e])%list (heap_fill w)
          (os_fopen w) (os_fwrite w) (os_fread w).

(** ** Outcomes and the monad *)

Inductive outcome (A : Type) :=
| Ret (a : A) (w : World)
| Exited (status : Z) (w : World)
| Aborted (w : World)
| OutOfFuel (w : World).
Arguments Ret {A} a w.
Arguments Exited {A} status w.
Arguments Aborted {A} w.
Arguments OutOfFuel {A} w.

Definition M (A : Type) : Type := World -> outcome A.

Definition ret {A} (a : A) : M A := fun w => Ret a w.

Definition bind {A B} (m : M A) (k : A -> M B) : M B :=
  fun w =>
    match m w with
    | Ret a w' => k a w'
    | Exited s w' => Exited s w'
    | Aborted w' => Aborted w'
    | OutOfFuel w' => OutOfFuel w'
    end.

Declare Scope prog_scope.
Delimit Scope prog_scope with prog.
Notation "x <- m ;; k" := (bind m (fun x => k))
  (at level 100, m at next level, right associativity) : prog_scope.
Notation "m ;; k" := (bind m (fun _ => k))
  (at level 100, right associativity) : prog_scope.
Open Scope prog_scope.

Definition exit {A} (status : Z) : M A := fun w => Exited status w.
Definition abort {A} : M A := fun w => Aborted w.
Definition out_of_fuel {A} : M A := fun w => OutOfFuel w.
Definition modify (f : World -> World) : M unit := fun w => Ret tt (f w).
Definition when (b : bool) (m : M unit) : M unit := if b then m else ret tt.
Definition get_errno : M Z := fun w => Ret (errno w) w.

(** ** stdio *)

Inductive stream := Stderr | OnPath (path : string).

(** A [FILE]: the stream it is bound to, its position indicator and its
    error indicator. *)
Record FILE := mkFILE { fstream : stream; fpos : nat; ferror : bool }.

Definition stderr : FILE := mkFILE Stderr 0 false.

(** The text joins what the stream holds.  A stream on a path is one that
    [FOpen] returned, so the file is there. *)
Definition emit (s : stream) (text : string) (w : World) : World :=
  match s with
  | Stderr => set_err (fun e => e ++ text) w
  | OnPath p => set_files (alter (fun c => c ++ text) p) w
  end.

(** [fprintf(fp, ...)] with the conversions already applied: the text joins
    the stream.  Every caller drops the value [fprintf] returns. *)
Definition fprintf (fp : FILE) (text : string) : M unit :=
  modify (emit (fstream fp) text).

(** [::printf] and [i::PrintF] write to standard output. *)
Definition printf (text : string) : M unit :=
  modify (set_out (fun o => o ++ text)).

(** [v8::base::OS::FOpen]: [None] is the null pointer.  Opening for reading
    needs the file to exist ([ENOENT] is 2); opening with ["wb"] creates the
    file or cuts it to length zero. *)
Definition FOpen (filename mode : string) : M (option FILE) :=
  fun w =>
    let w := add_log (EvFOpen filename mode) w in
    match os_fopen w filename mode with
    | Some e => Ret None (set_errno e w)
    | None =>
        if String.eqb mode "wb" then
          Ret (Some (mkFILE (OnPath filename) 0 false))
              (set_files (insert filename EmptyString) w)
        else
          match files w !! filename with
          | Some _ => Ret (Some (mkFILE (OnPath filename) 0 false)) w
          | None => Ret None (set_errno 2 w)
          end
    end.

Definition fclose (fp : FILE) : M unit := ret tt.

(** [remove(path)]: the directory entry goes away; the caller drops the
    result. *)
Definition remove (path : string) : M unit :=
  modify (fun w => set_files (delete path) (add_log (EvRemove path) w)).

(** [fwrite(ptr, 1, n, fp)]: the operating system accepts some of the [n]
    bytes, those reach the file, and their count is returned. *)
Definition fwrite (data : list byte) (n : nat) (fp : FILE) : M Z :=
  fun w =>
    match fstream fp with
    | Stderr => Ret (Z.of_nat n) (emit Stderr (string_of_list_byte (firstn n data)) w)
    | OnPath p =>
        let k := Nat.min n (os_fwrite w p n) in
        Ret (Z.of_nat k) (emit (OnPath p) (string_of_list_byte (firstn k data)) w)
    end.

(** ** i::Vector<const i::byte> and v8::StartupData *)

Record Vector := mkVector { start_ : list byte; length_ : Z }.

Definition Vector_length (v : Vector) : Z := length_ v.
Definition Vector_begin (v : Vector) : list byte := start_ v.
Definition Vector_at (v : Vector) (i : Z) : byte := nth (Z.to_nat i) (start_ v) x00.

(** [data = None] is the null pointer. *)
Record StartupData := mkStartupData { data : option (list byte); raw_size : Z }.

(** The vector describes its buffer: the length is the buffer's, and it is
    an [int]. *)
Definition Vector_ok (v : Vector) : Prop :=
  length_ v = Z.of_nat (length (start_ v)) /\ length_ v <= INT_MAX.

(** A blob with a buffer, whose size is the buffer's and fits an [int]. *)
Definition StartupData_ok (b : StartupData) : Prop :=
  exists bs, data b = Some bs /\ raw_size b = Z.of_nat (length bs) /\ raw_size b <= INT_MAX.

(** ** class SnapshotWriter *)

Record SnapshotWriter := mkSnapshotWriter {
  snapshot_cpp_path_ : option string;
  snapshot_blob_path_ : option string
}.

Definition SnapshotWriter_new : SnapshotWriter := mkSnapshotWriter None None.

Definition SetSnapshotFile (this : SnapshotWriter) (snapshot_cpp_file : string) : SnapshotWriter :=
  mkSnapshotWriter (Some snapshot_cpp_file) (snapshot_blob_path_ this).

Definition SetStartupBlobFile (this : SnapshotWriter) (snapshot_blob_file : string) : SnapshotWriter :=
  mkSnapshotWriter (snapshot_cpp_path_ this) (Some snapshot_blob_file).

Definition GetFileDescriptorOrDie (filename : string) : M FILE :=
  fp <- FOpen filename "wb" ;;
  match fp with
  | None =>
      printf ("Unable to open file " ++ dquote ++ filename ++ dquote ++ " for writing." ++ nl) ;;
      exit 1
  | Some fp => ret fp
  end.

(** The [for] loop of [WriteSnapshotData]; [i] is an [int]. *)
Fixpoint WriteSnapshotData_loop (fuel : nat) (fp : FILE) (blob : Vector) (i : Z) : M unit :=
  match fuel with
  | O => out_of_fuel
  | S fuel' =>
      if i <? Vector_length blob then
        when (Z.land i 0x1f =? 0x1f) (fprintf fp nl) ;;
        when (i >? 0) (fprintf fp ",") ;;
        fprintf fp (fmt_u (Byte.to_N (Vector_at blob i))) ;;
        WriteSnapshotData_loop fuel' fp blob (wrap_int (i + 1))
      else ret tt
  end.

Definition WriteSnapshotData (fp : FILE) (blob : Vector) : M unit :=
  WriteSnapshotData_loop (S (Z.to_nat (Vector_length blob))) fp blob 0 ;;
  fprintf fp nl.

Definition WriteData (fp : FILE) (blob : Vector) : M unit :=
  fprintf fp ("static const byte blob_data[] = {" ++ nl) ;;
  WriteSnapshotData fp blob ;;
  fprintf fp ("};" ++ nl) ;;
  fprintf fp ("static const int blob_size = " ++ fmt_d (Vector_length blob) ++ ";" ++ nl) ;;
  fprintf fp ("static const v8::StartupData blob =" ++ nl) ;;
  fprintf fp ("{ (const char*) blob_data, blob_size };" ++ nl).

Definition WriteFilePrefix (fp : FILE) : M unit :=
  fprintf fp ("// Autogenerated snapshot file. Do not edit." ++ nl ++ nl) ;;
  fprintf fp ("#include " ++ dquote ++ "src/v8.h" ++ dquote ++ nl) ;;
  fprintf fp ("#include " ++ dquote ++ "src/base/platform/platform.h" ++ dquote ++ nl ++ nl) ;;
  fprintf fp ("#include " ++ dquote ++ "src/snapshot/snapshot.h" ++ dquote ++ nl ++ nl) ;;
  fprintf fp ("namespace v8 {" ++ nl) ;;
  fprintf fp ("namespace internal {" ++ nl ++ nl).

Definition WriteFileSuffix (fp : FILE) : M unit :=
  fprintf fp ("const v8::StartupData* Snapshot::DefaultSnapshotBlob() {" ++ nl) ;;
  fprintf fp ("  return &blob;" ++ nl) ;;
  fprintf fp ("}" ++ nl ++ nl) ;;
  fprintf fp ("}  // namespace internal" ++ nl) ;;
  fprintf fp ("}  // namespace v8" ++ nl).

Definition MaybeWriteSnapshotFile (this : SnapshotWriter) (blob : Vector) : M unit :=
  match snapshot_cpp_path_ this with
  | None => ret tt
  | Some path =>
      fp <- GetFileDescriptorOrDie path ;;
      WriteFilePrefix fp ;;
      WriteData fp blob ;;
      WriteFileSuffix fp ;;
      fclose fp
  end.

Definition MaybeWriteStartupBlob (this : SnapshotWriter) (blob : Vector) : M unit :=
  match snapshot_blob_path_ this with
  | None => ret tt
  | Some path =>
      fp <- GetFileDescriptorOrDie path ;;
      written <- fwrite (Vector_begin blob) (Z.to_nat (size_t_of_int (Vector_length blob))) fp ;;
      fclose fp ;;
      if negb (written =? size_t_of_int (Vector_length blob)) then
        printf ("Writing snapshot file failed.. Aborting." ++ nl) ;;
        remove path ;;
        exit 1
      else ret tt
  end.

(** The vector built over a blob: its pointer (an empty buffer stands for
    the null pointer) and its size. *)
Definition blob_vector (blob : StartupData) : Vector :=
  mkVector (match data blob with Some bs => bs | None => [] end) (raw_size blob).

Definition WriteSnapshot (this : SnapshotWriter) (blob : StartupData) : M unit :=
  MaybeWriteSnapshotFile this (blob_vector blob) ;;
  MaybeWriteStartupBlob this (blob_vector blob).

(** ** GetExtraCode *)

(** [fseek(file, 0, SEEK_END)], [ftell] and [rewind] on a stream bound to a
    file.  Offsets ([long], [size_t]) are file offsets and are kept as
    [nat]. *)
Definition fseek_end (file : FILE) : M FILE :=
  fun w =>
    match fstream file with
    | Stderr => Ret file w
    | OnPath p =>
        Ret (mkFILE (OnPath p) (String.length (default EmptyString (files w !! p))) (ferror file)) w
    end.

Definition ftell (file : FILE) : nat := fpos file.

Definition rewind (file : FILE) : FILE := mkFILE (fstream file) 0 false.

(** [new char[n]]: the content is whatever the heap holds. *)
Definition new_char_array (n : nat) : M (list byte) :=
  fun w => Ret (repeat (heap_fill w) n) w.

(** [fread(&chars[i], 1, n, file)]: on an error the indicator is set,
    [errno] tells why and nothing is delivered; otherwise the bytes that
    follow the position, at most [n] of them and at least one while some are
    left and [n] is not 0, land in [chars] from index [i] on and the
    position moves; at the end of the file nothing is delivered and no error
    is flagged.  The result is the buffer, the count and the stream. *)
Definition fread (chars : list byte) (i n : nat) (file : FILE) : M (list byte * nat * FILE) :=
  fun w =>
    match fstream file with
    | Stderr => Ret (chars, 0%nat, file) w
    | OnPath p =>
        match os_fread w p (fpos file) with
        | inl e => Ret (chars, 0%nat, mkFILE (OnPath p) (fpos file) true) (set_errno e w)
        | inr k =>
            let content := default EmptyString (files w !! p) in
            let got := list_byte_of_string
                         (substring (fpos file) (Nat.min n (S k)) content) in
            let count := length got in
            Ret ((firstn i chars ++ got ++ skipn (i + count) chars)%list, count,
                 mkFILE (OnPath p) (fpos file + count) (ferror file)) w
        end
    end.

(** The [for] loop of [GetExtraCode]. *)
Fixpoint GetExtraCode_loop (fuel : nat) (filename : string) (file : FILE)
    (size : nat) (chars : list byte) (i : nat) : M (list byte) :=
  match fuel with
  | O => out_of_fuel
  | S fuel' =>
      if (i <? size)%nat then
        r <- fread chars i (size - i) file ;;
        let '(chars, read, file) := r in
        if ferror file then
          e <- get_errno ;;
          fprintf stderr ("Failed to read '" ++ filename ++ "': errno " ++ fmt_d e ++ nl) ;;
          exit 1
        else GetExtraCode_loop fuel' filename file size chars (i + read)%nat
      else ret chars
  end.

(** [filename = None] is the null pointer; so is the result [None]. *)
Definition GetExtraCode (filename : option string) (description : string)
    : M (option (list byte)) :=
  match filename with
  | None => ret None
  | Some filename =>
      if (String.length filename =? 0)%nat then ret None
      else
        printf ("Loading script for " ++ description ++ ": " ++ filename ++ nl) ;;
        file <- FOpen filename "rb" ;;
        match file with
        | None =>
            e <- get_errno ;;
            fprintf stderr ("Failed to open '" ++ filename ++ "': errno " ++ fmt_d e ++ nl) ;;
            exit 1
        | Some file =>
            file <- fseek_end file ;;
            let size := ftell file in
            let file := rewind file in
            chars <- new_char_array (size + 1) ;;
            let chars := <[size := x00]> chars in
            chars <- GetExtraCode_loop (S size) filename file size chars 0 ;;
            fclose file ;;
            ret (Some chars)
        end
  end.

(** ** main *)

Record Flags := mkFlags {
  FLAG_help : bool;
  FLAG_startup_src : option string;
  FLAG_startup_blob : option string
}.

(** What [main] calls in the engine, the platform and the flag parser.
    [SetFlagsFromCommandLine] is given [argv] and yields its result, the
    arguments left once the flags are taken out, and the flags it set. *)
Record Engine := mkEngine {
  set_FLAG_predictable : bool -> M unit;
  SetFlagsFromCommandLine : list string -> M (Z * list string * Flags);
  PrintHelp : M unit;
  CpuFeatures_Probe : bool -> M unit;
  InitializeICUDefaultLocation : string -> M unit;
  CreateDefaultPlatform : M unit;
  InitializePlatform : M unit;
  Initialize : M unit;
  CreateSnapshotDataBlob : option (list byte) -> M StartupData;
  WarmUpSnapshotDataBlob : StartupData -> list byte -> M StartupData;
  Dispose : M unit;
  ShutdownPlatform : M unit
}.

(** Modelled from the spec: the macro [CHECK] of [src/base/logging.h], "process
    abort via assertion" when its condition fails. *)
Definition CHECK (condition : bool) : M unit :=
  if condition then ret tt else abort.

(** [delete[]] changes nothing the program can observe afterwards. *)
Definition delete_array {A} (p : A) : M unit := ret tt.

Definition argv_at (argv : list string) (i : nat) : string := nth i argv EmptyString.

Section Main.
Variable E : Engine.

(** Lines 167 to 177: the two stages that build the blob. *)
Definition main_build_blob (argv : list string) : M StartupData :=
  let argc := Z.of_nat (length argv) in
  embed_script <- GetExtraCode (if argc >=? 2 then Some (argv_at argv 1) else None) "embedding" ;;
  blob <- CreateSnapshotDataBlob E embed_script ;;
  delete_array embed_script ;;
  warmup_script <- GetExtraCode (if argc >=? 3 then Some (argv_at argv 2) else None) "warm up" ;;
  match warmup_script with
  | Some script =>
      let cold := blob in
      blob <- WarmUpSnapshotDataBlob E cold script ;;
      delete_array (data cold) ;;
      delete_array script ;;
      ret blob
  | None => ret blob
  end.

(** [main] from the test on the parser's result on. *)
Definition main_after_flags (result : Z) (argv : list string) (flags : Flags) : M Z :=
  let argc := Z.of_nat (length argv) in
  if (result >? 0) || (argc >? 3) || FLAG_help flags then
    printf ("Usage: " ++ argv_at argv 0 ++ " --startup_src=... --startup_blob=... [extras]" ++ nl) ;;
    PrintHelp E ;;
    ret (if FLAG_help flags then 0 else 1)
  else
    CpuFeatures_Probe E true ;;
    InitializeICUDefaultLocation E (argv_at argv 0) ;;
    CreateDefaultPlatform E ;;
    InitializePlatform E ;;
    Initialize E ;;
    let writer := SnapshotWriter_new in
    let writer := match FLAG_startup_src flags with
                  | Some f => SetSnapshotFile writer f | None => writer end in
    let writer := match FLAG_startup_blob flags with
                  | Some f => SetStartupBlobFile writer f | None => writer end in
    blob <- main_build_blob argv ;;
    CHECK (bool_decide (is_Some (data blob))) ;;
    WriteSnapshot writer blob ;;
    delete_array (data blob) ;;
    Dispose E ;;
    ShutdownPlatform E ;;
    delete_array tt ;;
    ret 0.

Definition main (argv : list string) : M Z :=
  set_FLAG_predictable E true ;;
  r <- SetFlagsFromCommandLine E argv ;;
  let '(result, argv, flags) := r in
  main_after_flags result argv flags.
End Main.

(** ** The format of the array body, in the words of its description

    The definitions of this part do not come from the code: they say what
    the body is meant to look like and how it is read back, and the code is
    compared with them below. *)

(** The low five bits of the index are all set. *)
Definition low5_set (i : nat) : bool :=
  forallb (N.testbit (N.of_nat i)) [0; 1; 2; 3; 4]%N.

(** The unsigned decimal notation of a number, as the standard library
    writes it. *)
Definition decimal (n : N) : string := NilZero.string_of_uint (N.to_uint n).

(** What is written for the byte at index [i]: a line break first when the
    low five bits of [i] are set, a comma unless the byte is the first, the
    value. *)
Definition element_text (i : nat) (b : byte) : string :=
  (if low5_set i then nl else EmptyString) ++
  (match i with O => EmptyString | S _ => "," end) ++
  decimal (Byte.to_N b).

Fixpoint elements_text (i : nat) (bs : list byte) : string :=
  match bs with
  | [] => EmptyString
  | b :: bs' => element_text i b ++ elements_text (S i) bs'
  end.

(** The body: every byte in index order, then one line break. *)
Definition body_text (bs : list byte) : string := elements_text 0 bs ++ nl.

(** Reading the body back: the text is split at commas and line breaks,
    white space inside a field is dropped, a field left empty holds no value,
    every other field is an unsigned decimal number. *)
Definition is_sep (c : ascii) : bool :=
  Ascii.eqb c ","%char || Ascii.eqb c "010"%char.

Fixpoint fields (s : string) : list string :=
  match s with
  | EmptyString => [EmptyString]
  | String c s' =>
      if is_sep c then EmptyString :: fields s'
      else match fields s' with
           | f :: fs => String c f :: fs
           | [] => [String c EmptyString]
           end
  end.

Fixpoint strip (s : string) : string :=
  match s with
  | EmptyString => EmptyString
  | String c s' => if Ascii.is_space c then strip s' else String c (strip s')
  end.

Definition digit_value (c : ascii) : option N :=
  let n := N_of_ascii c in
  if ((48 <=? n) && (n <=? 57))%N then Some (n - 48)%N else None.

Fixpoint parse_digits (acc : N) (s : string) : option N :=
  match s with
  | EmptyString => Some acc
  | String c s' =>
      match digit_value c with
      | Some d => parse_digits (10 * acc + d)%N s'
      | None => None
      end
  end.

Definition parse_uint (s : string) : option N :=
  match s with
  | EmptyString => None
  | _ => parse_digits 0 s
  end.

Fixpoint parse_fields (fs : list string) : option (list N) :=
  match fs with
  | [] => Some []
  | f :: fs' =>
      match strip f with
      | EmptyString => parse_fields fs'
      | t =>
          match parse_uint t, parse_fields fs' with
          | Some n, Some ns => Some (n :: ns)
          | _, _ => None
          end
      end
  end.

Definition decode (s : string) : option (list N) := parse_fields (fields s).

(** The number of line breaks in a text. *)
Fixpoint line_breaks (s : string) : nat :=
  match s with
  | EmptyString => 0%nat
  | String c s' => ((if Ascii.eqb c "010"%char then 1 else 0) + line_breaks s')%nat
  end.

(** A text with neither separators nor white space. *)
Fixpoint plain (s : string) : bool :=
  match s with
  | EmptyString => true
  | String c s' => negb (is_sep c) && negb (Ascii.is_space c) && plain s'
  end.

(** The number of line breaks the description of the row format gives for
    [n] bytes. *)
Definition described_breaks (n : Z) : Z := (n + 31 - 1) / 32.

(** ** Sample inputs *)

(** The bytes 0, 1, ..., 33. *)
Definition blob_0_33 : list byte :=
  Eval cbv in omap Byte.of_nat (seq 0 34).

(** A world where [snapshot.cc] is open and empty, every open is granted,
    every write is taken in full and no read fails. *)
Definition sample_world : World :=
  mkWorld {[ "snapshot.cc" := EmptyString ]} EmptyString EmptyString 0 [] xcd
          (fun _ _ => None) (fun _ n => n) (fun _ _ => inr 0%nat).

Definition sample_fp : FILE := mkFILE (OnPath "snapshot.cc") 0 false.

(** A world where [fwrite] takes one byte at most. *)
Definition full_disk_world : World :=
  mkWorld ∅ EmptyString EmptyString 0 [] xcd
          (fun _ _ => None) (fun _ n => Nat.min n 1) (fun _ _ => inr 0%nat).

(** An engine that returns no blob: the flag parser keeps the arguments
    and sets both output paths, every other call does nothing. *)
Definition null_blob_engine : Engine :=
  mkEngine (fun _ => ret tt)
           (fun argv => ret (0, argv, mkFlags false (Some "snapshot.cc") (Some "snapshot_blob.bin")))
           (ret tt) (fun _ => ret tt) (fun _ => ret tt) (ret tt) (ret tt) (ret tt)
           (fun _ => ret (mkStartupData None 0))
           (fun cold _ => ret cold)
           (ret tt) (ret tt).

(** A world that holds one script; reads come two bytes at a time. *)
Definition script_world : World :=
  mkWorld {[ "embed.js" := "var a = 1;" ]} EmptyString EmptyString 0 [] xcd
          (fun _ _ => None) (fun _ n => n) (fun _ _ => inr 1%nat).

(** ** The text of the source file *)

(** What [WriteFilePrefix] writes. *)
Definition file_prefix_text : string :=
  "// Autogenerated snapshot file. Do not edit." ++ nl ++ nl ++
  "#include " ++ dquote ++ "src/v8.h" ++ dquote ++ nl ++
  "#include " ++ dquote ++ "src/base/platform/platform.h" ++ dquote ++ nl ++ nl ++
  "#include " ++ dquote ++ "src/snapshot/snapshot.h" ++ dquote ++ nl ++ nl ++
  "namespace v8 {" ++ nl ++
  "namespace internal {" ++ nl ++ nl.

(** What [WriteFileSuffix] writes. *)
Definition file_suffix_text : string :=
  "const v8::StartupData* Snapshot::DefaultSnapshotBlob() {" ++ nl ++
  "  return &blob;" ++ nl ++
  "}" ++ nl ++ nl ++
  "}  // namespace internal" ++ nl ++
  "}  // namespace v8" ++ nl.

(** What [WriteData] writes around a body and a size. *)
Definition data_text (body size : string) : string :=
  "static const byte blob_data[] = {" ++ nl ++
  body ++
  "};" ++ nl ++
  "static const int blob_size = " ++ size ++ ";" ++ nl ++
  "static const v8::StartupData blob =" ++ nl ++
  "{ (const char*) blob_data, blob_size };" ++ nl.

(** A world where no file can be opened ([EACCES] is 13). *)
Definition locked_world : World :=
  mkWorld {[ "snapshot.cc" := "old" ]} EmptyString EmptyString 0 [] xcd
          (fun _ _ => Some 13) (fun _ n => n) (fun _ _ => inr 0%nat).

(** A world with old files at both output paths. *)
Definition stale_world : World :=
  mkWorld {[ "snapshot.cc" := "old text"; "snapshot_blob.bin" := "old bytes" ]}
          EmptyString EmptyString 0 [] xcd
          (fun _ _ => None) (fun _ n => n) (fun _ _ => inr 0%nat).

(** A world with an empty script, where every read would fail. *)
Definition empty_script_world : World :=
  mkWorld {[ "empty.js" := EmptyString ]} EmptyString EmptyString 0 [] xcd
          (fun _ _ => None) (fun _ n => n) (fun _ _ => inl 5).

(** Every character of a text passes a test. *)
Fixpoint all_chars (p : ascii -> bool) (s : string) : bool :=
  match s with
  | EmptyString => true
  | String c s' => p c && all_chars p s'
  end.

(** A decimal digit, a comma or a line feed. *)
Definition body_char (c : ascii) : bool :=
  match digit_value c with
  | Some _ => true
  | None => Ascii.eqb c ","%char || Ascii.eqb c "010"%char
  end.

(** An engine whose calls all return at once. *)
Definition idle_engine : Engine :=
  mkEngine (fun _ => ret tt)
           (fun argv => ret (0, argv, mkFlags false None None))
           (ret tt) (fun _ => ret tt) (fun _ => ret tt) (ret tt) (ret tt) (ret tt)
           (fun script => ret (mkStartupData (Some (default [] script))
                                 (Z.of_nat (length (default [] script)))))
           (fun cold script => ret (mkStartupData (Some script) (Z.of_nat (length script))))
           (ret tt) (ret tt).

(** The lines of a text: what lies between its line feeds. *)
Fixpoint lines (s : string) : list string :=
  match s with
  | EmptyString => [EmptyString]
  | String c s' =>
      if Ascii.eqb c "010"%char then EmptyString :: lines s'
      else match lines s' with
           | l :: ls => String c l :: ls
           | [] => [String c EmptyString]
           end
  end.

(** A line that reads back as [width] values at most. *)
Definition row_ok (width : nat) (line : string) : Prop :=
  exists vs, decode line = Some vs /\ (length vs <= width)%nat.

(** * Proofs *)

(** ** Text *)

Lemma sapp_cons (x : ascii) (a b : string) : String x a ++ b = String x (a ++ b).
Proof. reflexivity. Qed.

Lemma sapp_assoc (a b c : string) : (a ++ b) ++ c = a ++ (b ++ c).
Proof.
  induction a as [|x a IH]; [reflexivity|].
  rewrite !sapp_cons. now rewrite IH.
Qed.

Lemma sapp_empty_r (a : string) : a ++ EmptyString = a.
Proof.
  induction a as [|x a IH]; [reflexivity|].
  rewrite sapp_cons. now rewrite IH.
Qed.

(** ** The world under [emit] *)

Lemma emit_emit (s : stream) (a b : string) (w : World) :
  emit s b (emit s a w) = emit s (a ++ b) w.
Proof.
  destruct s as [|p]; unfold emit, set_err, set_files; simpl; f_equal.
  - apply sapp_assoc.
  - apply map_eq; intros q. destruct (decide (p = q)) as [->|Hne].
    + rewrite !lookup_alter_eq.
      destruct (files w !! q) as [c|]; simpl; [|reflexivity].
      now rewrite sapp_assoc.
    + now rewrite !lookup_alter_ne.
Qed.

Lemma emit_empty (s : stream) (w : World) : emit s EmptyString w = w.
Proof.
  destruct w; destruct s as [|p]; unfold emit, set_err, set_files; simpl; f_equal.
  - apply sapp_empty_r.
  - apply alter_id. intros c _. apply sapp_empty_r.
Qed.

Lemma files_emit_path (p : string) (t : string) (w : World) :
  files (emit (OnPath p) t w) !! p = (fun c => c ++ t) <$> files w !! p.
Proof. unfold emit, set_files; simpl. now rewrite lookup_alter_eq. Qed.

(** ** Numbers *)

Lemma fmt_u_byte (b : byte) : fmt_u (Byte.to_N b) = decimal (Byte.to_N b).
Proof. destruct b; vm_compute; reflexivity. Qed.

Lemma low5_set_mod (i : nat) : low5_set i = (N.of_nat i mod 32 =? 31)%N.
Proof.
  unfold low5_set, forallb.
  rewrite <- !(N.mod_pow2_bits_low (N.of_nat i) 5) by lia.
  change (2 ^ 5)%N with 32%N.
  assert (Hr : (N.of_nat i mod 32 < 32)%N) by (apply N.mod_upper_bound; lia).
  remember (N.of_nat i mod 32)%N as r eqn:Er. clear Er.
  destruct r as [|p]; [reflexivity|].
  do 5 (destruct p as [p|p|]; try reflexivity; try lia).
Qed.

Lemma land_low5 (i : nat) : (Z.land (Z.of_nat i) 0x1f =? 0x1f) = low5_set i.
Proof.
  rewrite low5_set_mod.
  change 0x1f with (Z.ones 5). rewrite Z.land_ones by lia.
  change (Z.ones 5) with 31. change (2 ^ 5) with 32.
  rewrite <- nat_N_Z.
  change 32 with (Z.of_N 32). rewrite <- N2Z.inj_mod.
  change 31 with (Z.of_N 31).
  destruct (N.eqb_spec (N.of_nat i mod 32) 31) as [->|Hne].
  - apply Z.eqb_refl.
  - apply Z.eqb_neq. intros H. apply N2Z.inj in H. contradiction.
Qed.

Lemma wrap_int_small (z : Z) : - 2 ^ 31 <= z <= INT_MAX -> wrap_int z = z.
Proof.
  unfold wrap_int, INT_MAX. intros H.
  rewrite Z.mod_small by lia. lia.
Qed.

(** ** The loop of [WriteSnapshotData] *)

Lemma skipn_cons_lookup {A} (l : list A) (i : nat) (x : A) (r : list A) :
  skipn i l = x :: r -> l !! i = Some x /\ skipn (S i) l = r /\ (i < length l)%nat.
Proof.
  intros H.
  assert (Hx : l !! i = Some x).
  { pose proof (lookup_drop l i 0) as Hd.
    rewrite H, Nat.add_0_r in Hd. now symmetry. }
  split; [exact Hx|]. split.
  - pose proof (drop_S l x i Hx) as Hd.
    rewrite H in Hd. now inversion Hd.
  - now apply lookup_lt_Some with x.
Qed.

Lemma run_fprintf (fp : FILE) (t : string) (w : World) :
  fprintf fp t w = Ret tt (emit (fstream fp) t w).
Proof. reflexivity. Qed.

Lemma WriteSnapshotData_loop_run (fp : FILE) (blob : Vector) :
  Vector_ok blob ->
  forall (rest : list byte) (idx fuel : nat) (w : World),
    skipn idx (start_ blob) = rest ->
    (length rest < fuel)%nat ->
    WriteSnapshotData_loop fuel fp blob (Z.of_nat idx) w
    = Ret tt (emit (fstream fp) (elements_text idx rest) w).
Proof.
  intros [Hlen Hmax] rest.
  induction rest as [|b rest IH]; intros idx fuel w Hskip Hfuel.
  - destruct fuel as [|fuel]; [simpl in Hfuel; lia|].
    assert (Hge : (length (start_ blob) <= idx)%nat).
    { pose proof (length_skipn idx (start_ blob)) as Hl.
      rewrite Hskip in Hl. simpl in Hl. lia. }
    simpl. unfold Vector_length. rewrite Hlen.
    replace (Z.of_nat idx <? Z.of_nat (length (start_ blob))) with false
      by (symmetry; apply Z.ltb_ge; lia).
    unfold ret. now rewrite emit_empty.
  - destruct fuel as [|fuel]; [simpl in Hfuel; lia|].
    destruct (skipn_cons_lookup _ _ _ _ Hskip) as (Hb & Hnext & Hlt).
    cbn [WriteSnapshotData_loop]. unfold Vector_length. rewrite Hlen.
    replace (Z.of_nat idx <? Z.of_nat (length (start_ blob))) with true
      by (symmetry; apply Z.ltb_lt; lia).
    rewrite land_low5.
    assert (Hat : Vector_at blob (Z.of_nat idx) = b).
    { unfold Vector_at. rewrite Nat2Z.id, nth_lookup, Hb. reflexivity. }
    rewrite Hat, fmt_u_byte.
    rewrite wrap_int_small by (unfold INT_MAX in *; lia).
    replace (Z.of_nat idx + 1) with (Z.of_nat (S idx)) by lia.
    unfold bind at 1 2 3. 
    cbn [elements_text]. unfold element_text.
    simpl in Hfuel.
    destruct (low5_set idx); destruct idx as [|idx'];
      cbn [when]; unfold ret; rewrite ?run_fprintf;
      change (Z.of_nat 0 >? 0) with false;
      rewrite ?(proj2 (Z.gtb_gt (Z.of_nat (S idx')) 0)) by lia;
      cbn [when]; unfold ret; rewrite ?run_fprintf;
      rewrite (IH _ fuel _ Hnext) by lia;
      rewrite ?emit_emit, ?sapp_assoc; reflexivity.
Qed.

(** What one call of [WriteSnapshotData] does to the world. *)
Lemma run_WriteSnapshotData (fp : FILE) (blob : Vector) (w : World) :
  Vector_ok blob ->
  WriteSnapshotData fp blob w
  = Ret tt (emit (fstream fp) (body_text (start_ blob)) w).
Proof.
  intros Hok. unfold WriteSnapshotData, bind.
  rewrite (WriteSnapshotData_loop_run fp blob Hok (start_ blob) 0 _ w eq_refl).
  - rewrite run_fprintf, emit_emit. reflexivity.
  - destruct Hok as [Hlen _]. unfold Vector_length. rewrite Hlen, Nat2Z.id. lia.
Qed.

(** The indices whose low five bits are all set are 31, 63, 95, ... *)
Lemma low5_set_indices (i : nat) : low5_set i = true <-> exists k : nat, i = (32 * k + 31)%nat.
Proof.
  rewrite low5_set_mod, N.eqb_eq. split.
  - intros H. exists (i / 32)%nat.
    pose proof (Nat.div_mod_eq i 32) as Hd.
    assert (Hm : (i mod 32 = 31)%nat).
    { apply Nat2N.inj. rewrite Nat2N.inj_mod. exact H. }
    lia.
  - intros [k ->].
    change 31%N with (N.of_nat 31). change 32%N with (N.of_nat 32).
    rewrite <- Nat2N.inj_mod. f_equal.
    rewrite Nat.add_comm, Nat.mul_comm, Nat.Div0.mod_add. reflexivity.
Qed.

(** C2: the body [WriteSnapshotData] writes is the body of the formatting
    rule: in index order, a line break before the byte at every index whose
    low five bits are all set (the indices 31, 63, 95, ...), a comma before
    every byte but the first, each byte as its unsigned decimal value, which
    is below 256, and one line break after the last byte. *)
Theorem WriteSnapshotData_follows_rule (fp : FILE) (blob : Vector) (w : World) :
  Vector_ok blob ->
  WriteSnapshotData fp blob w
  = Ret tt (emit (fstream fp) (body_text (start_ blob)) w) /\
  (forall i : nat, low5_set i = true <-> exists k : nat, i = (32 * k + 31)%nat) /\
  (forall b : byte, (0 <= Byte.to_N b < 256)%N).
Proof.
  intros Hok. split; [exact (run_WriteSnapshotData fp blob w Hok)|].
  split; [exact low5_set_indices|].
  intros b. pose proof (Byte.to_N_bounded b). lia.
Qed.

Lemma WriteSnapshotData_follows_rule_witness :
  Vector_ok (mkVector blob_0_33 34) /\
  WriteSnapshotData sample_fp (mkVector blob_0_33 34) sample_world
  = Ret tt (emit (OnPath "snapshot.cc") (body_text blob_0_33) sample_world).
Proof.
  assert (Hok : Vector_ok (mkVector blob_0_33 34)).
  { split; [reflexivity | unfold INT_MAX; simpl; lia]. }
  split; [exact Hok|].
  exact (proj1 (WriteSnapshotData_follows_rule sample_fp (mkVector blob_0_33 34)
                  sample_world Hok)).
Defined.

(** ** Reading the body back *)

Lemma fields_plain_sep (d : string) (c : ascii) (r : string) :
  plain d = true -> is_sep c = true ->
  fields (d ++ String c r) = d :: fields r.
Proof.
  intros Hd Hc. induction d as [|x d IH].
  - simpl. now rewrite Hc.
  - rewrite sapp_cons. simpl in Hd |- *.
    apply andb_prop in Hd as [Hx Hd]. apply andb_prop in Hx as [Hx _].
    apply negb_true_iff in Hx. rewrite Hx, (IH Hd). reflexivity.
Qed.

Lemma strip_plain (d : string) : plain d = true -> strip d = d.
Proof.
  induction d as [|x d IH]; simpl; [reflexivity|]. intros Hd.
  apply andb_prop in Hd as [Hx Hd]. apply andb_prop in Hx as [_ Hx].
  apply negb_true_iff in Hx. rewrite Hx, (IH Hd). reflexivity.
Qed.

Lemma decode_sep (c : ascii) (r : string) :
  is_sep c = true -> decode (String c r) = decode r.
Proof. intros Hc. unfold decode. simpl. now rewrite Hc. Qed.

Lemma decode_number (d : string) (n : N) (c : ascii) (r : string) :
  plain d = true -> parse_uint d = Some n -> is_sep c = true ->
  decode (d ++ String c r) = cons n <$> decode (String c r).
Proof.
  intros Hd Hn Hc. rewrite (decode_sep c r Hc). unfold decode.
  rewrite (fields_plain_sep d c r Hd Hc). cbn [parse_fields].
  rewrite (strip_plain d Hd).
  destruct d as [|x d]; [discriminate|].
  rewrite Hn. destruct (parse_fields (fields r)); reflexivity.
Qed.

Lemma decimal_byte_ok (b : byte) :
  plain (decimal (Byte.to_N b)) = true /\
  parse_uint (decimal (Byte.to_N b)) = Some (Byte.to_N b).
Proof. destruct b; vm_compute; split; reflexivity. Qed.

Lemma elements_then_nl_starts_with_sep (i : nat) (bs : list byte) :
  exists c r, elements_text (S i) bs ++ nl = String c r /\ is_sep c = true.
Proof.
  destruct bs as [|b bs].
  - eexists _, _. split; reflexivity.
  - cbn [elements_text]. unfold element_text.
    destruct (low5_set (S i)); eexists _, _; split; reflexivity.
Qed.

Lemma decode_elements (bs : list byte) (i : nat) :
  decode (elements_text (S i) bs ++ nl) = Some (map Byte.to_N bs).
Proof.
  revert i. induction bs as [|b bs IH]; intros i; [reflexivity|].
  destruct (decimal_byte_ok b) as [Hp Hn].
  destruct (elements_then_nl_starts_with_sep (S i) bs) as (c & r & Hr & Hc).
  cbn [elements_text]. unfold element_text.
  assert (Hgo : decode (decimal (Byte.to_N b) ++ elements_text (S (S i)) bs ++ nl)
                = Some (map Byte.to_N (b :: bs))).
  { rewrite Hr, (decode_number _ _ c r Hp Hn Hc), <- Hr, IH. reflexivity. }
  destruct (low5_set (S i)); rewrite !sapp_assoc.
  - change (nl ++ ?x) with (String "010"%char x).
    rewrite decode_sep by reflexivity.
    change ("," ++ ?x) with (String ","%char x).
    rewrite decode_sep by reflexivity. exact Hgo.
  - change (EmptyString ++ ?x) with x.
    change ("," ++ ?x) with (String ","%char x).
    rewrite decode_sep by reflexivity. exact Hgo.
Qed.

Lemma decode_body_text (bs : list byte) :
  decode (body_text bs) = Some (map Byte.to_N bs).
Proof.
  unfold body_text. destruct bs as [|b bs]; [reflexivity|].
  destruct (decimal_byte_ok b) as [Hp Hn].
  destruct (elements_then_nl_starts_with_sep 0 bs) as (c & r & Hr & Hc).
  cbn [elements_text]. unfold element_text.
  change (low5_set 0) with false. cbv iota.
  change (EmptyString ++ ?x) with x. rewrite !sapp_assoc.
  change (EmptyString ++ ?x) with x.
  rewrite Hr, (decode_number _ _ c r Hp Hn Hc), <- Hr, decode_elements.
  reflexivity.
Qed.

Lemma byte_values_in_range (bs : list byte) :
  Forall (fun n => (n < 256)%N) (map Byte.to_N bs).
Proof.
  induction bs as [|b bs IH]; simpl; constructor; [|exact IH].
  pose proof (Byte.to_N_bounded b). lia.
Qed.

(** C1: read back (split at commas and line breaks, white space ignored),
    the body [WriteSnapshotData] adds to the file is the blob's bytes, in
    order: as many values as the blob is long, each below 256. *)
Theorem WriteSnapshotData_decodes (path : string) (pos : nat) (e : bool)
    (blob : Vector) (w : World) (before : string) :
  Vector_ok blob ->
  files w !! path = Some before ->
  exists w' text,
    WriteSnapshotData (mkFILE (OnPath path) pos e) blob w = Ret tt w' /\
    files w' !! path = Some (before ++ text) /\
    decode text = Some (map Byte.to_N (start_ blob)) /\
    Z.of_nat (length (map Byte.to_N (start_ blob))) = Vector_length blob /\
    Forall (fun n => (0 <= n < 256)%N) (map Byte.to_N (start_ blob)).
Proof.
  intros Hok Hfile.
  exists (emit (OnPath path) (body_text (start_ blob)) w), (body_text (start_ blob)).
  split; [exact (run_WriteSnapshotData _ blob w Hok)|].
  split; [rewrite files_emit_path, Hfile; reflexivity|].
  split; [apply decode_body_text|].
  split.
  - rewrite length_map. destruct Hok as [Hlen _]. now rewrite <- Hlen.
  - eapply Forall_impl; [apply byte_values_in_range|].
    intros n Hn. simpl in Hn. lia.
Qed.

Lemma WriteSnapshotData_decodes_witness :
  Vector_ok (mkVector blob_0_33 34) /\
  files sample_world !! "snapshot.cc" = Some EmptyString /\
  exists w' text,
    WriteSnapshotData sample_fp (mkVector blob_0_33 34) sample_world = Ret tt w' /\
    files w' !! "snapshot.cc" = Some (EmptyString ++ text) /\
    decode text = Some (map Byte.to_N blob_0_33) /\
    Z.of_nat (length (map Byte.to_N blob_0_33)) = 34 /\
    Forall (fun n => (0 <= n < 256)%N) (map Byte.to_N blob_0_33).
Proof.
  assert (Hok : Vector_ok (mkVector blob_0_33 34)).
  { split; [reflexivity | unfold INT_MAX; simpl; lia]. }
  split; [exact Hok|]. split; [reflexivity|].
  exact (WriteSnapshotData_decodes "snapshot.cc" 0 false (mkVector blob_0_33 34)
           sample_world EmptyString Hok eq_refl).
Defined.

(** ** The scenario of the bytes 0 to 33 *)

Lemma run_WriteData (fp : FILE) (blob : Vector) (w : World) :
  Vector_ok blob ->
  WriteData fp blob w
  = Ret tt (emit (fstream fp)
              (("static const byte blob_data[] = {" ++ nl) ++
               body_text (start_ blob) ++
               ("};" ++ nl) ++
               ("static const int blob_size = " ++ fmt_d (Vector_length blob) ++ ";" ++ nl) ++
               ("static const v8::StartupData blob =" ++ nl) ++
               ("{ (const char*) blob_data, blob_size };" ++ nl)) w).
Proof.
  intros Hok. unfold WriteData, bind.
  rewrite run_fprintf, (run_WriteSnapshotData fp blob _ Hok).
  rewrite !run_fprintf, !emit_emit, !sapp_assoc. reflexivity.
Qed.

(** C3, as the code has it: for the bytes 0, 1, ..., 33 the body is the
    values 0 to 30 on the first line, a line break, then [,31,32,33] and the
    closing line break; the length constant is written as 34. *)
Theorem WriteData_bytes_0_33 (fp : FILE) (w : World) :
  WriteSnapshotData fp (mkVector blob_0_33 34) w
  = Ret tt (emit (fstream fp)
      ("0,1,2,3,4,5,6,7,8,9,10,11,12,13,14,15,16,17,18,19,20,21,22,23,24,25,26,27,28,29,30"
       ++ nl ++ ",31,32,33" ++ nl) w) /\
  WriteData fp (mkVector blob_0_33 34) w
  = Ret tt (emit (fstream fp)
      ("static const byte blob_data[] = {" ++ nl ++
       "0,1,2,3,4,5,6,7,8,9,10,11,12,13,14,15,16,17,18,19,20,21,22,23,24,25,26,27,28,29,30"
       ++ nl ++ ",31,32,33" ++ nl ++
       "};" ++ nl ++
       "static const int blob_size = 34;" ++ nl ++
       "static const v8::StartupData blob =" ++ nl ++
       "{ (const char*) blob_data, blob_size };" ++ nl) w).
Proof.
  assert (Hok : Vector_ok (mkVector blob_0_33 34)).
  { split; [reflexivity | unfold INT_MAX; simpl; lia]. }
  split.
  - rewrite (run_WriteSnapshotData fp _ w Hok). reflexivity.
  - rewrite (run_WriteData fp _ w Hok). reflexivity.
Qed.

(** C3, as it is worded, fails: the text written for the bytes 0, 1, ..., 33
    does not begin with the values 0 to 31 followed by a line break. *)
Lemma WriteData_bytes_0_33_counterexample :
  exists w' body,
    WriteSnapshotData sample_fp (mkVector blob_0_33 34) sample_world = Ret tt w' /\
    files w' !! "snapshot.cc" = Some body /\
    String.prefix ("0,1,2,3,4,5,6,7,8,9,10,11,12,13,14,15,16,17,18,19,20,21,22,23,24,25,26,27,28,29,30,31" ++ nl)
           body = false.
Proof.
  eexists _, _. split; [|split].
  - reflexivity.
  - vm_compute. reflexivity.
  - vm_compute. reflexivity.
Qed.

(** ** Counting the line breaks *)

Lemma line_breaks_app (a b : string) :
  line_breaks (a ++ b) = (line_breaks a + line_breaks b)%nat.
Proof.
  induction a as [|x a IH]; [reflexivity|].
  rewrite sapp_cons. simpl. rewrite IH. lia.
Qed.

Lemma line_breaks_decimal_byte (b : byte) : line_breaks (decimal (Byte.to_N b)) = 0%nat.
Proof. destruct b; vm_compute; reflexivity. Qed.

Lemma low5_set_div (i : nat) :
  ((if low5_set i then 1 else 0) + i / 32 = S i / 32)%nat.
Proof.
  rewrite low5_set_mod.
  assert (Hm : (N.of_nat i mod 32)%N = N.of_nat (i mod 32)).
  { change 32%N with (N.of_nat 32). now rewrite Nat2N.inj_mod. }
  rewrite Hm.
  pose proof (Nat.div_mod_eq i 32) as Hi.
  pose proof (Nat.mod_upper_bound i 32 ltac:(lia)) as Hb.
  pose proof (Nat.div_mod_eq (S i) 32) as Hs.
  pose proof (Nat.mod_upper_bound (S i) 32 ltac:(lia)) as Hsb.
  destruct (N.eqb_spec (N.of_nat (i mod 32)) 31) as [He|Hne].
  - assert (i mod 32 = 31)%nat by lia. lia.
  - assert (i mod 32 <> 31)%nat by lia. lia.
Qed.

Lemma line_breaks_element (i : nat) (b : byte) :
  line_breaks (element_text i b) = (if low5_set i then 1 else 0)%nat.
Proof.
  unfold element_text. rewrite !line_breaks_app, line_breaks_decimal_byte.
  destruct (low5_set i); destruct i; reflexivity.
Qed.

Lemma line_breaks_elements (bs : list byte) (i : nat) :
  (line_breaks (elements_text i bs) + i / 32 = (i + length bs) / 32)%nat.
Proof.
  revert i. induction bs as [|b bs IH]; intros i.
  - simpl. now rewrite Nat.add_0_r.
  - cbn [elements_text length]. rewrite line_breaks_app, line_breaks_element.
    pose proof (IH (S i)) as H1. pose proof (low5_set_div i) as H2.
    replace (i + S (length bs))%nat with (S i + length bs)%nat by lia. lia.
Qed.

(** C4, as the code has it: for a blob of [N > 0] bytes the body is an inner
    text with [N / 32] line breaks followed by the closing line break, and
    the text depends on the blob's bytes only: written to any file of any
    world it is the same. *)
Theorem WriteSnapshotData_line_breaks (blob : Vector) :
  Vector_ok blob ->
  0 < Vector_length blob ->
  exists inner : string,
    line_breaks inner = Z.to_nat (Vector_length blob / 32) /\
    line_breaks (inner ++ nl) = Z.to_nat (Vector_length blob / 32 + 1) /\
    forall (path : string) (pos : nat) (e : bool) (w : World) (before : string),
      files w !! path = Some before ->
      exists w',
        WriteSnapshotData (mkFILE (OnPath path) pos e) blob w = Ret tt w' /\
        files w' !! path = Some (before ++ inner ++ nl).
Proof.
  intros Hok Hpos. exists (elements_text 0 (start_ blob)).
  assert (Hin : line_breaks (elements_text 0 (start_ blob))
                = Z.to_nat (Vector_length blob / 32)).
  { pose proof (line_breaks_elements (start_ blob) 0) as H.
    change (0 / 32)%nat with 0%nat in H. rewrite Nat.add_0_r in H. simpl in H.
    rewrite H. destruct Hok as [Hlen _]. unfold Vector_length. rewrite Hlen.
    change 32 with (Z.of_nat 32). rewrite <- Nat2Z.inj_div, Nat2Z.id. reflexivity. }
  split; [exact Hin|]. split.
  - rewrite line_breaks_app, Hin. change (line_breaks nl) with 1%nat.
    assert (0 <= Vector_length blob / 32) by (apply Z.div_pos; lia). lia.
  - intros path pos e w before Hfile.
    exists (emit (OnPath path) (body_text (start_ blob)) w). split.
    + exact (run_WriteSnapshotData _ blob w Hok).
    + rewrite files_emit_path, Hfile. reflexivity.
Qed.

Lemma WriteSnapshotData_line_breaks_witness :
  Vector_ok (mkVector blob_0_33 34) /\ 0 < 34 /\
  exists inner : string,
    line_breaks inner = Z.to_nat (34 / 32) /\
    line_breaks (inner ++ nl) = Z.to_nat (34 / 32 + 1) /\
    forall (path : string) (pos : nat) (e : bool) (w : World) (before : string),
      files w !! path = Some before ->
      exists w',
        WriteSnapshotData (mkFILE (OnPath path) pos e) (mkVector blob_0_33 34) w = Ret tt w' /\
        files w' !! path = Some (before ++ inner ++ nl).
Proof.
  assert (Hok : Vector_ok (mkVector blob_0_33 34)).
  { split; [reflexivity | unfold INT_MAX; simpl; lia]. }
  split; [exact Hok|]. split; [lia|].
  exact (WriteSnapshotData_line_breaks (mkVector blob_0_33 34) Hok ltac:(simpl; lia)).
Defined.

(** C4, as it is worded, fails.  Two bytes give the body [0,0] and the
    closing line break: no line break inside, where the formula says one.
    Counting the closing line break too does not save the formula: one byte
    gives one line break in all, where the formula says none. *)
Lemma WriteSnapshotData_line_breaks_counterexample :
  (exists w',
     WriteSnapshotData sample_fp (mkVector [x00; x00] 2) sample_world = Ret tt w' /\
     files w' !! "snapshot.cc" = Some ("0,0" ++ nl) /\
     Z.of_nat (line_breaks "0,0") <> described_breaks 2) /\
  (exists w',
     WriteSnapshotData sample_fp (mkVector [x00] 1) sample_world = Ret tt w' /\
     files w' !! "snapshot.cc" = Some ("0" ++ nl) /\
     Z.of_nat (line_breaks ("0" ++ nl)) <> described_breaks 1).
Proof.
  split; eexists; (split; [reflexivity|]); (split; [vm_compute; reflexivity|]);
    vm_compute; discriminate.
Qed.

(** ** The writer without paths, and the empty blob *)

(** C7: with neither path set [WriteSnapshot] returns and leaves the world
    as it was, whatever the blob; and each of the two writes returns at once,
    the world untouched, when its own path is not set. *)
Theorem WriteSnapshot_without_paths (blob : StartupData) (v : Vector)
    (cpp_path blob_path : option string) (w : World) :
  WriteSnapshot SnapshotWriter_new blob w = Ret tt w /\
  MaybeWriteStartupBlob (mkSnapshotWriter cpp_path None) v w = Ret tt w /\
  MaybeWriteSnapshotFile (mkSnapshotWriter None blob_path) v w = Ret tt w.
Proof. repeat split. Qed.

Lemma run_GetFileDescriptorOrDie (path : string) (w : World) :
  os_fopen w path "wb" = None ->
  GetFileDescriptorOrDie path w
  = Ret (mkFILE (OnPath path) 0 false)
        (set_files (insert path EmptyString) (add_log (EvFOpen path "wb") w)).
Proof.
  intros Hopen. unfold GetFileDescriptorOrDie, bind, FOpen.
  cbn [os_fopen add_log]. rewrite Hopen. reflexivity.
Qed.

Lemma blob_vector_empty (b : StartupData) :
  StartupData_ok b -> raw_size b = 0 -> blob_vector b = mkVector [] 0.
Proof.
  intros (bs & Hd & Hs & _) H0. unfold blob_vector. rewrite Hd, H0.
  rewrite H0 in Hs. destruct bs; [reflexivity | simpl in Hs; lia].
Qed.

(** C10: for a blob of length 0 whose buffer is not null the array body is
    one line break and nothing else and the length constant is 0; the
    binary write, once its file is open, writes nothing, finds the count
    right, and returns: the file is there, empty, nothing is removed and the
    process does not exit. *)
Theorem empty_blob_writes (b : StartupData) :
  StartupData_ok b ->
  raw_size b = 0 ->
  (forall fp w,
      WriteSnapshotData fp (blob_vector b) w = Ret tt (emit (fstream fp) nl w)) /\
  (forall fp w,
      WriteData fp (blob_vector b) w
      = Ret tt (emit (fstream fp)
                  ("static const byte blob_data[] = {" ++ nl ++ nl ++ "};" ++ nl ++
                   "static const int blob_size = 0;" ++ nl ++
                   "static const v8::StartupData blob =" ++ nl ++
                   "{ (const char*) blob_data, blob_size };" ++ nl) w)) /\
  (forall cpp_path path w,
      os_fopen w path "wb" = None ->
      MaybeWriteStartupBlob (mkSnapshotWriter cpp_path (Some path)) (blob_vector b) w
      = Ret tt (set_files (insert path EmptyString) (add_log (EvFOpen path "wb") w))).
Proof.
  intros Hok Hsize. rewrite (blob_vector_empty b Hok Hsize).
  assert (Hv : Vector_ok (mkVector [] 0)) by (split; [reflexivity | unfold INT_MAX; simpl; lia]).
  split; [|split].
  - intros fp w. rewrite (run_WriteSnapshotData fp _ w Hv). reflexivity.
  - intros fp w. rewrite (run_WriteData fp _ w Hv). reflexivity.
  - intros cpp_path path w Hopen.
    unfold MaybeWriteStartupBlob. cbn [snapshot_blob_path_]. unfold bind at 1.
    rewrite (run_GetFileDescriptorOrDie path w Hopen).
    unfold bind at 1.
    change (Z.to_nat (size_t_of_int (Vector_length (mkVector [] 0)))) with 0%nat.
    unfold fwrite. cbn [fstream Nat.min firstn Vector_begin start_].
    change (string_of_list_byte []) with EmptyString.
    rewrite emit_empty. reflexivity.
Qed.

Lemma empty_blob_writes_witness :
  StartupData_ok (mkStartupData (Some []) 0) /\
  MaybeWriteStartupBlob (mkSnapshotWriter None (Some "snapshot_blob.bin"))
    (blob_vector (mkStartupData (Some []) 0)) sample_world
  = Ret tt (set_files (insert "snapshot_blob.bin" EmptyString)
              (add_log (EvFOpen "snapshot_blob.bin" "wb") sample_world)).
Proof.
  assert (Hok : StartupData_ok (mkStartupData (Some []) 0)).
  { exists []. repeat split. unfold INT_MAX. simpl. lia. }
  split; [exact Hok|].
  exact (proj2 (proj2 (empty_blob_writes _ Hok eq_refl))
           None "snapshot_blob.bin" sample_world eq_refl).
Defined.

(** ** The short write *)

(** C5: when [fwrite] reports a count that is not the blob's length, the
    binary write prints its message, removes the file it had opened and exits
    with status 1: the path holds no file afterwards.  Inside
    [WriteSnapshot] the source write has run before, and nothing runs after
    the exit. *)
Theorem MaybeWriteStartupBlob_short_write (this : SnapshotWriter) (path : string)
    (blob : StartupData) (w0 w w1 w2 : World) (fp : FILE) (written : Z) :
  snapshot_blob_path_ this = Some path ->
  Vector_ok (blob_vector blob) ->
  MaybeWriteSnapshotFile this (blob_vector blob) w0 = Ret tt w ->
  GetFileDescriptorOrDie path w = Ret fp w1 ->
  fwrite (Vector_begin (blob_vector blob))
         (Z.to_nat (size_t_of_int (Vector_length (blob_vector blob)))) fp w1
  = Ret written w2 ->
  written <> Vector_length (blob_vector blob) ->
  let w3 := set_files (delete path)
              (add_log (EvRemove path)
                 (set_out (fun o => o ++ "Writing snapshot file failed.. Aborting." ++ nl) w2)) in
  MaybeWriteStartupBlob this (blob_vector blob) w = Exited 1 w3 /\
  WriteSnapshot this blob w0 = Exited 1 w3 /\
  files w3 !! path = None /\
  1 <> 0.
Proof.
  intros Hpath [Hlen Hmax] Hsrc Hopen Hwrite Hne w3.
  assert (Hrun : MaybeWriteStartupBlob this (blob_vector blob) w = Exited 1 w3).
  { unfold MaybeWriteStartupBlob. rewrite Hpath. unfold bind at 1. rewrite Hopen.
    unfold bind at 1. rewrite Hwrite. unfold bind at 1, fclose, ret.
    assert (Hcast : size_t_of_int (Vector_length (blob_vector blob))
                    = Vector_length (blob_vector blob)).
    { unfold size_t_of_int, Vector_length. apply Z.mod_small.
      unfold INT_MAX in Hmax. lia. }
    rewrite Hcast. apply Z.eqb_neq in Hne. rewrite Hne. reflexivity. }
  split; [exact Hrun|]. split; [|split].
  - unfold WriteSnapshot, bind. rewrite Hsrc. exact Hrun.
  - unfold w3, set_files. cbn [files]. apply lookup_delete_eq.
  - lia.
Qed.

Lemma MaybeWriteStartupBlob_short_write_witness :
  exists w3,
    WriteSnapshot (mkSnapshotWriter None (Some "snapshot_blob.bin"))
      (mkStartupData (Some [x01; x02; x03]) 3) full_disk_world = Exited 1 w3 /\
    files w3 !! "snapshot_blob.bin" = None.
Proof.
  assert (Hok : Vector_ok (blob_vector (mkStartupData (Some [x01; x02; x03]) 3))).
  { split; [reflexivity | unfold INT_MAX; simpl; lia]. }
  eexists.
  pose proof (MaybeWriteStartupBlob_short_write
                (mkSnapshotWriter None (Some "snapshot_blob.bin")) "snapshot_blob.bin"
                (mkStartupData (Some [x01; x02; x03]) 3)
                full_disk_world full_disk_world _ _ _ _
                eq_refl Hok eq_refl eq_refl eq_refl ltac:(simpl; lia)) as H.
  split; [exact (proj1 (proj2 H)) | exact (proj1 (proj2 (proj2 H)))].
Defined.

(** ** The script loader and the driver *)

(** C8: for a script path that is null or the empty string [GetExtraCode]
    returns null and leaves the world as it was: no open is attempted (the
    log is the same) and nothing is printed.  It is no error, and the driver
    behaves with an empty last script argument as it does without it. *)
Theorem GetExtraCode_no_script (E : Engine) (description argv0 script : string)
    (result : Z) (flags : Flags) (w : World) :
  GetExtraCode None description w = Ret None w /\
  GetExtraCode (Some EmptyString) description w = Ret None w /\
  main_after_flags E result [argv0; EmptyString] flags w
  = main_after_flags E result [argv0] flags w /\
  main_after_flags E result [argv0; script; EmptyString] flags w
  = main_after_flags E result [argv0; script] flags w /\
  main_after_flags E result [argv0; EmptyString; EmptyString] flags w
  = main_after_flags E result [argv0] flags w.
Proof. repeat split. Qed.

(** C6: when the stages have built a blob whose buffer is null, [main]
    aborts on its [CHECK], in the world the stages left: the writer has not
    run, no file was opened or written. *)
Theorem main_null_blob_aborts (E : Engine) (argv argv' : list string) (result : Z)
    (flags : Flags) (blob : StartupData) (w0 w1 w2 w3 : World) :
  (set_FLAG_predictable E true ;; SetFlagsFromCommandLine E argv) w0
  = Ret (result, argv', flags) w1 ->
  (result >? 0) || (Z.of_nat (length argv') >? 3) || FLAG_help flags = false ->
  (CpuFeatures_Probe E true ;;
   InitializeICUDefaultLocation E (argv_at argv' 0) ;;
   CreateDefaultPlatform E ;;
   InitializePlatform E ;;
   Initialize E) w1 = Ret tt w2 ->
  main_build_blob E argv' w2 = Ret blob w3 ->
  data blob = None ->
  main E argv w0 = Aborted w3.
Proof.
  intros Hflags Husage Hinit Hbuild Hnull.
  unfold main. unfold bind in Hflags |- *.
  destruct (set_FLAG_predictable E true w0) as [[] wa| | |]; try discriminate.
  destruct (SetFlagsFromCommandLine E argv wa) as [r wb| | |]; try discriminate.
  inversion Hflags; subst r wb; clear Hflags.
  unfold main_after_flags. rewrite Husage.
  unfold bind in Hinit |- *.
  destruct (CpuFeatures_Probe E true w1) as [[] wc| | |]; try discriminate.
  destruct (InitializeICUDefaultLocation E (argv_at argv' 0) wc) as [[] wd| | |];
    try discriminate.
  destruct (CreateDefaultPlatform E wd) as [[] we| | |]; try discriminate.
  destruct (InitializePlatform E we) as [[] wf| | |]; try discriminate.
  destruct (Initialize E wf) as [[] wg| | |]; try discriminate.
  inversion Hinit; subst wg; clear Hinit.
  rewrite Hbuild, Hnull. reflexivity.
Qed.

Lemma main_null_blob_aborts_witness :
  main null_blob_engine ["mksnapshot"] sample_world = Aborted sample_world.
Proof.
  exact (main_null_blob_aborts null_blob_engine ["mksnapshot"] ["mksnapshot"] 0
           (mkFlags false (Some "snapshot.cc") (Some "snapshot_blob.bin"))
           (mkStartupData None 0) sample_world sample_world sample_world sample_world
           eq_refl eq_refl eq_refl eq_refl eq_refl).
Defined.

(** ** Reading a script *)

Lemma length_list_byte_of_string (s : string) :
  length (list_byte_of_string s) = String.length s.
Proof.
  induction s as [|c s IH]; [reflexivity|].
  change (list_byte_of_string (String c s))
    with (byte_of_ascii c :: list_byte_of_string s).
  simpl. now rewrite IH.
Qed.

Lemma list_byte_of_substring (s : string) (p k : nat) :
  list_byte_of_string (substring p k s) = firstn k (skipn p (list_byte_of_string s)).
Proof.
  revert p k. induction s as [|c s IH]; intros p k.
  - destruct p, k; reflexivity.
  - change (list_byte_of_string (String c s))
      with (byte_of_ascii c :: list_byte_of_string s).
    destruct p as [|p].
    + destruct k as [|k]; [reflexivity|]. simpl substring.
      change (list_byte_of_string (String c (substring 0 k s)))
        with (byte_of_ascii c :: list_byte_of_string (substring 0 k s)).
      rewrite IH. reflexivity.
    + simpl. apply IH.
Qed.

Section ReadLoop.
Variables (filename content : string) (w : World).
Hypothesis Hfile : files w !! filename = Some content.

Let L := String.length content.
Let bytes := list_byte_of_string content.
Let failed (e : Z) : World :=
  emit Stderr ("Failed to read '" ++ filename ++ "': errno " ++ fmt_d e ++ nl)
       (set_errno e w).

Lemma GetExtraCode_loop_error (fuel size i : nat) (e : Z) (chars : list byte)
    (file : FILE) :
  (i < size)%nat -> fstream file = OnPath filename -> fpos file = i ->
  os_fread w filename i = inl e ->
  GetExtraCode_loop (S fuel) filename file size chars i w = Exited 1 (failed e).
Proof.
  intros Hi Hs Hp He. cbn [GetExtraCode_loop].
  apply Nat.ltb_lt in Hi. rewrite Hi.
  unfold bind at 1. unfold fread. rewrite Hs, Hp, He. reflexivity.
Qed.

Lemma GetExtraCode_loop_step (fuel i k : nat) (junk : list byte) :
  (i < L)%nat -> length junk = (L - i)%nat ->
  os_fread w filename i = inr k ->
  GetExtraCode_loop (S fuel) filename (mkFILE (OnPath filename) i false) L
    (firstn i bytes ++ junk ++ [x00])%list i w
  = GetExtraCode_loop fuel filename
      (mkFILE (OnPath filename) (i + Nat.min (L - i) (S k)) false) L
      (firstn (i + Nat.min (L - i) (S k)) bytes
       ++ skipn (Nat.min (L - i) (S k)) junk ++ [x00])%list
      (i + Nat.min (L - i) (S k)) w.
Proof.
  intros Hlt Hjunk Hread.
  assert (Hlen : length bytes = L) by apply length_list_byte_of_string.
  cbn [GetExtraCode_loop]. apply Nat.ltb_lt in Hlt as Hltb. rewrite Hltb.
  unfold bind at 1. unfold fread. cbn [fstream fpos ferror].
  rewrite Hread, Hfile. cbn [default from_option]. unfold id.
  rewrite list_byte_of_substring. fold bytes.
  set (m := Nat.min (L - i) (S k)).
  assert (Hm : (1 <= m <= L - i)%nat) by (unfold m; lia).
  assert (Hgot : length (firstn m (skipn i bytes)) = m).
  { rewrite length_firstn, length_skipn. lia. }
  rewrite Hgot. cbn [ferror].
  assert (Hfi : length (firstn i bytes) = i) by (rewrite length_firstn; lia).
  rewrite take_app_length' by (symmetry; exact Hfi).
  rewrite drop_app_ge by lia. rewrite Hfi.
  replace (i + m - i)%nat with m by lia.
  rewrite drop_app_le by lia.
  rewrite <- (take_take_drop bytes i m).
  rewrite <- !app_assoc. reflexivity.
Qed.

Lemma GetExtraCode_loop_run (fuel : nat) :
  forall (i : nat) (junk : list byte),
    (i <= L)%nat -> length junk = (L - i)%nat -> (L - i < fuel)%nat ->
    let r := GetExtraCode_loop fuel filename (mkFILE (OnPath filename) i false) L
               (firstn i bytes ++ junk ++ [x00])%list i w in
    r = Ret (bytes ++ [x00])%list w \/
    exists pos e, (i <= pos < L)%nat /\ os_fread w filename pos = inl e /\
                  r = Exited 1 (failed e).
Proof.
  induction fuel as [|fuel IH]; intros i junk Hi Hjunk Hfuel; [lia|].
  assert (Hlen : length bytes = L) by apply length_list_byte_of_string.
  cbn zeta.
  destruct (Nat.lt_ge_cases i L) as [Hlt|Hge].
  - destruct (os_fread w filename i) as [e|k] eqn:Hread.
    + right. exists i, e. split; [lia|]. split; [exact Hread|].
      now apply GetExtraCode_loop_error.
    + rewrite (GetExtraCode_loop_step fuel i k junk Hlt Hjunk Hread).
      set (m := Nat.min (L - i) (S k)).
      assert (Hm : (1 <= m <= L - i)%nat) by (unfold m; lia).
      destruct (IH (i + m)%nat (skipn m junk)) as [Hret | (pos & e & Hpos & He & Hex)].
      * lia.
      * rewrite length_skipn. lia.
      * lia.
      * left. exact Hret.
      * right. exists pos, e. split; [lia|]. split; [exact He | exact Hex].
  - left. assert (i = L) by lia. subst i.
    assert (junk = []) by (destruct junk; [reflexivity | simpl in Hjunk; lia]).
    subst junk. cbn [GetExtraCode_loop]. rewrite Nat.ltb_irrefl.
    unfold ret. rewrite <- Hlen, firstn_all. reflexivity.
Qed.
End ReadLoop.

Lemma insert_last_repeat {A} (x y : A) (n : nat) :
  <[n := x]> (repeat y (n + 1)) = (repeat y n ++ [x])%list.
Proof. induction n as [|n IH]; simpl; [reflexivity | now rewrite IH]. Qed.

Lemma length_nonzero (s : string) : s <> EmptyString -> (String.length s =? 0)%nat = false.
Proof. destruct s; [contradiction | reflexivity]. Qed.

Lemma run_FOpen_rb (filename content : string) (w : World) :
  files w !! filename = Some content ->
  os_fopen w filename "rb" = None ->
  FOpen filename "rb" w
  = Ret (Some (mkFILE (OnPath filename) 0 false)) (add_log (EvFOpen filename "rb") w).
Proof.
  intros Hfile Hopen. unfold FOpen. cbn [os_fopen add_log files].
  rewrite Hopen, Hfile. reflexivity.
Qed.

(** C9: for a script file that opens, of length [L] (the offset [ftell]
    gives after the seek to the end), [GetExtraCode] returns a buffer of
    [L + 1] bytes, the file's content in order and then the byte 0, unless an
    [fread] fails: then, and at whatever offset of the loop that is, it exits
    with status 1 after a message on the error stream that names the path and
    [errno]. *)
Theorem GetExtraCode_reads_file (filename description content : string) (w : World) :
  filename <> EmptyString ->
  files w !! filename = Some content ->
  os_fopen w filename "rb" = None ->
  let L := String.length content in
  let buffer := (list_byte_of_string content ++ [x00])%list in
  let w1 := add_log (EvFOpen filename "rb")
              (set_out (fun o => o ++ "Loading script for " ++ description ++ ": "
                                   ++ filename ++ nl) w) in
  let failed (e : Z) (w' : World) :=
    emit Stderr ("Failed to read '" ++ filename ++ "': errno " ++ fmt_d e ++ nl)
         (set_errno e w') in
  (exists file,
      fseek_end (mkFILE (OnPath filename) 0 false) w1 = Ret file w1 /\
      ftell file = L /\ ftell (rewind file) = 0%nat) /\
  (length buffer = (L + 1)%nat /\
   firstn L buffer = list_byte_of_string content /\
   buffer !! L = Some x00) /\
  (GetExtraCode (Some filename) description w = Ret (Some buffer) w1 \/
   exists pos e, (pos < L)%nat /\ os_fread w filename pos = inl e /\
     GetExtraCode (Some filename) description w = Exited 1 (failed e w1)) /\
  ((forall pos e, (pos < L)%nat -> os_fread w filename pos <> inl e) ->
   GetExtraCode (Some filename) description w = Ret (Some buffer) w1) /\
  (forall fuel size i e chars file w',
      (i < size)%nat -> fstream file = OnPath filename -> fpos file = i ->
      os_fread w' filename i = inl e ->
      GetExtraCode_loop (S fuel) filename file size chars i w'
      = Exited 1 (failed e w')).
Proof.
  intros Hname Hfile Hopen L buffer w1 failed.
  assert (Hlen : length (list_byte_of_string content) = L)
    by apply length_list_byte_of_string.
  assert (Hfile1 : files w1 !! filename = Some content) by exact Hfile.
  assert (Hseek : fseek_end (mkFILE (OnPath filename) 0 false) w1
                  = Ret (mkFILE (OnPath filename) L false) w1).
  { unfold fseek_end. cbn [fstream ferror]. rewrite Hfile1. reflexivity. }
  assert (Hrun : GetExtraCode (Some filename) description w
                 = match GetExtraCode_loop (S L) filename (mkFILE (OnPath filename) 0 false) L
                           (firstn 0 (list_byte_of_string content)
                            ++ repeat (heap_fill w) L ++ [x00])%list 0 w1 with
                   | Ret chars w' => Ret (Some chars) w'
                   | Exited s w' => Exited s w'
                   | Aborted w' => Aborted w'
                   | OutOfFuel w' => OutOfFuel w'
                   end).
  { unfold GetExtraCode. rewrite (length_nonzero filename Hname).
    unfold bind at 1. unfold printf, modify.
    unfold bind at 1.
    rewrite (run_FOpen_rb filename content (set_out _ w) Hfile Hopen). fold w1.
    unfold bind at 1. rewrite Hseek.
    unfold bind at 1. unfold new_char_array.
    unfold ftell, rewind. cbn [fpos fstream].
    rewrite insert_last_repeat.
    unfold bind at 1. cbn [firstn app].
    destruct (GetExtraCode_loop _ _ _ _ _ _ _); reflexivity. }
  assert (Hloop := GetExtraCode_loop_run filename content w1 Hfile1 (S L) 0
                     (repeat (heap_fill w) L) ltac:(lia)
                     ltac:(rewrite repeat_length; fold L; lia) ltac:(fold L; lia)).
  cbn zeta in Hloop. fold L in Hloop.
  assert (Hcases :
    GetExtraCode (Some filename) description w = Ret (Some buffer) w1 \/
    exists pos e, (pos < L)%nat /\ os_fread w filename pos = inl e /\
      GetExtraCode (Some filename) description w = Exited 1 (failed e w1)).
  { rewrite Hrun. destruct Hloop as [Hret | (pos & e & Hpos & He & Hex)].
    - left. rewrite Hret. reflexivity.
    - right. exists pos, e. split; [lia|]. split; [exact He|].
      rewrite Hex. reflexivity. }
  split; [|split; [|split; [|split]]].
  - eexists. split; [exact Hseek|]. split; reflexivity.
  - unfold buffer. split; [|split].
    + rewrite length_app, Hlen. reflexivity.
    + rewrite take_app_length' by (symmetry; exact Hlen). reflexivity.
    + rewrite lookup_app_r by lia. rewrite Hlen, Nat.sub_diag. reflexivity.
  - exact Hcases.
  - intros Hnoerr. destruct Hcases as [Hret | (pos & e & Hpos & He & _)];
      [exact Hret | destruct (Hnoerr pos e Hpos He)].
  - intros fuel size i e chars file w' Hi Hs Hp He.
    now apply GetExtraCode_loop_error.
Qed.

Lemma GetExtraCode_reads_file_witness :
  exists w1,
    GetExtraCode (Some "embed.js") "embedding" script_world
    = Ret (Some (list_byte_of_string "var a = 1;" ++ [x00])%list) w1.
Proof.
  eexists.
  refine (proj1 (proj2 (proj2 (proj2
            (GetExtraCode_reads_file "embed.js" "embedding" "var a = 1;" script_world
               ltac:(discriminate) eq_refl eq_refl)))) _).
  intros pos e _. discriminate.
Defined.

(** * More of the writer *)

(** ** The source file *)

Lemma run_WriteFilePrefix (fp : FILE) (w : World) :
  WriteFilePrefix fp w = Ret tt (emit (fstream fp) file_prefix_text w).
Proof.
  unfold WriteFilePrefix, bind. rewrite !run_fprintf, !emit_emit. reflexivity.
Qed.

Lemma run_WriteFileSuffix (fp : FILE) (w : World) :
  WriteFileSuffix fp w = Ret tt (emit (fstream fp) file_suffix_text w).
Proof.
  unfold WriteFileSuffix, bind. rewrite !run_fprintf, !emit_emit. reflexivity.
Qed.

Lemma run_WriteData_text (fp : FILE) (blob : Vector) (w : World) :
  Vector_ok blob ->
  WriteData fp blob w
  = Ret tt (emit (fstream fp)
              (data_text (body_text (start_ blob)) (fmt_d (Vector_length blob))) w).
Proof.
  intros Hok. rewrite (run_WriteData fp blob w Hok). unfold data_text.
  rewrite !sapp_assoc. reflexivity.
Qed.

Lemma files_emit_other (p q : string) (t : string) (w : World) :
  q <> p -> files (emit (OnPath p) t w) !! q = files w !! q.
Proof. intros Hne. unfold emit, set_files; simpl. now rewrite lookup_alter_ne. Qed.

Lemma run_MaybeWriteSnapshotFile (this : SnapshotWriter) (path : string)
    (blob : Vector) (w : World) :
  snapshot_cpp_path_ this = Some path ->
  Vector_ok blob ->
  os_fopen w path "wb" = None ->
  MaybeWriteSnapshotFile this blob w
  = Ret tt (emit (OnPath path)
              (file_prefix_text ++
               data_text (body_text (start_ blob)) (fmt_d (Vector_length blob)) ++
               file_suffix_text)
              (set_files (insert path EmptyString) (add_log (EvFOpen path "wb") w))).
Proof.
  intros Hpath Hok Hopen. unfold MaybeWriteSnapshotFile. rewrite Hpath.
  unfold bind at 1. rewrite (run_GetFileDescriptorOrDie path w Hopen).
  unfold bind. rewrite run_WriteFilePrefix, (run_WriteData_text _ blob _ Hok).
  rewrite run_WriteFileSuffix. unfold fclose, ret. cbn [fstream].
  rewrite !emit_emit. reflexivity.
Qed.

(** ** Decimal numbers *)

Lemma digit_value_digit_char (d : N) :
  (d < 10)%N -> digit_value (digit_char d) = Some d.
Proof.
  intros Hd. destruct d as [|p]; [reflexivity|].
  do 4 (destruct p as [p|p|]; try reflexivity; try lia).
Qed.

Lemma fmt_digits_S (r : nat) (n : N) (acc : string) :
  fmt_digits (S r) n acc
  = if (n / 10 =? 0)%N then String (digit_char (n mod 10)) acc
    else fmt_digits r (n / 10) (String (digit_char (n mod 10)) acc).
Proof. reflexivity. Qed.

Lemma fmt_digits_reads_back (r : nat) :
  forall (n : N) (acc : string),
    (n < 10 ^ N.of_nat (S r))%N ->
    exists (ds : string) (k : N),
      fmt_digits (S r) n acc = ds ++ acc /\ ds <> EmptyString /\
      forall (a : N) (s : string),
        parse_digits a (ds ++ s) = parse_digits (a * 10 ^ k + n) s.
Proof.
  induction r as [|r IH]; intros n acc Hn;
    rewrite fmt_digits_S;
    assert (Hmod : (n mod 10 < 10)%N) by (apply N.mod_upper_bound; lia);
    pose proof (N.div_mod n 10 ltac:(lia)) as Hdm;
    (destruct (N.eqb_spec (n / 10) 0) as [Hz|Hnz];
     [ exists (String (digit_char (n mod 10)) EmptyString), 1%N;
       split; [reflexivity|]; split; [discriminate|];
       intros a s; rewrite sapp_cons; cbn [parse_digits];
       rewrite (digit_value_digit_char _ Hmod); f_equal;
       change (10 ^ 1)%N with 10%N; lia | ]).
  - change (10 ^ N.of_nat 1)%N with 10%N in Hn.
    assert (n / 10 = 0)%N by (apply N.div_small; lia). contradiction.
  - assert (Hdiv : (n / 10 < 10 ^ N.of_nat (S r))%N).
    { apply N.Div0.div_lt_upper_bound.
      replace (10 * 10 ^ N.of_nat (S r))%N with (10 ^ N.of_nat (S (S r)))%N; [exact Hn|].
      rewrite (Nat2N.inj_succ (S r)), N.pow_succ_r'. reflexivity. }
    destruct (IH (n / 10)%N (String (digit_char (n mod 10)) acc) Hdiv)
      as (ds & k & Hfmt & Hne & Hparse).
    exists (ds ++ String (digit_char (n mod 10)) EmptyString), (k + 1)%N.
    split; [rewrite Hfmt, sapp_assoc; reflexivity|].
    split; [destruct ds; [contradiction | discriminate]|].
    intros a s. rewrite sapp_assoc, sapp_cons. change (EmptyString ++ s) with s.
    rewrite Hparse. cbn [parse_digits].
    rewrite (digit_value_digit_char _ Hmod). f_equal.
    rewrite N.pow_add_r. change (10 ^ 1)%N with 10%N. lia.
Qed.

Lemma parse_uint_fmt_digits (n : N) :
  (n < 10 ^ 10)%N -> parse_uint (fmt_digits 10 n EmptyString) = Some n.
Proof.
  intros Hn.
  destruct (fmt_digits_reads_back 9 n EmptyString Hn) as (ds & k & Hfmt & Hne & Hparse).
  rewrite Hfmt, sapp_empty_r. unfold parse_uint.
  destruct ds as [|c ds]; [contradiction|].
  pose proof (Hparse 0%N EmptyString) as H. rewrite sapp_empty_r in H.
  rewrite H. reflexivity.
Qed.

Lemma parse_uint_fmt_d (z : Z) :
  0 <= z <= INT_MAX -> parse_uint (fmt_d z) = Some (Z.to_N z).
Proof.
  intros Hz. unfold fmt_d.
  replace (z <? 0) with false by (symmetry; apply Z.ltb_ge; lia).
  apply parse_uint_fmt_digits. unfold INT_MAX in Hz.
  change (10 ^ 10)%N with 10000000000%N. lia.
Qed.

(** ** What reaches the files *)

(** X1: in the data section [WriteData] adds to the file, the array body
    reads back as the blob's bytes and the number written for [blob_size]
    reads back as their count, for every length an [int] can hold. *)
Theorem WriteData_size_agrees (path : string) (pos : nat) (e : bool)
    (blob : Vector) (w : World) (before : string) :
  Vector_ok blob ->
  files w !! path = Some before ->
  exists w' body size,
    WriteData (mkFILE (OnPath path) pos e) blob w = Ret tt w' /\
    files w' !! path = Some (before ++ data_text body size) /\
    decode body = Some (map Byte.to_N (start_ blob)) /\
    parse_uint size = Some (N.of_nat (length (start_ blob))).
Proof.
  intros Hok Hfile.
  exists (emit (OnPath path)
            (data_text (body_text (start_ blob)) (fmt_d (Vector_length blob))) w),
         (body_text (start_ blob)), (fmt_d (Vector_length blob)).
  split; [exact (run_WriteData_text _ blob w Hok)|].
  split; [rewrite files_emit_path, Hfile; reflexivity|].
  split; [apply decode_body_text|].
  destruct Hok as [Hlen Hmax]. unfold Vector_length in *.
  rewrite parse_uint_fmt_d by lia. rewrite Hlen. f_equal. lia.
Qed.

Lemma WriteData_size_agrees_witness :
  exists w' body size,
    WriteData sample_fp (mkVector blob_0_33 34) sample_world = Ret tt w' /\
    files w' !! "snapshot.cc" = Some (EmptyString ++ data_text body size) /\
    decode body = Some (map Byte.to_N blob_0_33) /\
    parse_uint size = Some 34%N.
Proof.
  assert (Hok : Vector_ok (mkVector blob_0_33 34)).
  { split; [reflexivity | unfold INT_MAX; simpl; lia]. }
  exact (WriteData_size_agrees "snapshot.cc" 0 false (mkVector blob_0_33 34)
           sample_world EmptyString Hok eq_refl).
Defined.







(** ** The two writes together *)

Lemma blob_vector_ok (b : StartupData) (bs : list byte) :
  data b = Some bs -> raw_size b = Z.of_nat (length bs) -> raw_size b <= INT_MAX ->
  Vector_ok (blob_vector b) /\ start_ (blob_vector b) = bs.
Proof.
  intros Hd Hs Hm. unfold blob_vector, Vector_ok. rewrite Hd. cbn [start_ length_].
  repeat split; assumption.
Qed.

Lemma run_GetFileDescriptorOrDie_refused (path : string) (e : Z) (w : World) :
  os_fopen w path "wb" = Some e ->
  GetFileDescriptorOrDie path w
  = Exited 1 (set_out (fun o => o ++ "Unable to open file " ++ dquote ++ path ++ dquote
                                  ++ " for writing." ++ nl)
                (set_errno e (add_log (EvFOpen path "wb") w))).
Proof.
  intros Hopen. unfold GetFileDescriptorOrDie, bind, FOpen.
  cbn [os_fopen add_log]. rewrite Hopen. reflexivity.
Qed.



(** X5: when the source path is set and its open is refused,
    [WriteSnapshot] exits with status 1 after the message on standard
    output that names the file; no file is created, cut or changed, and the
    binary file is not even opened, whether its path is set or not. *)
Theorem WriteSnapshot_source_open_refused (this : SnapshotWriter) (cpp : string)
    (blob : StartupData) (e : Z) (w : World) :
  snapshot_cpp_path_ this = Some cpp ->
  os_fopen w cpp "wb" = Some e ->
  exists w',
    WriteSnapshot this blob w = Exited 1 w' /\
    files w' = files w /\
    out w' = out w ++ "Unable to open file " ++ dquote ++ cpp ++ dquote
                   ++ " for writing." ++ nl /\
    errno w' = e /\
    log w' = (log w ++ [EvFOpen cpp "wb"])%list.
Proof.
  intros Hcpp Hopen. eexists. split.
  - unfold WriteSnapshot, bind at 1, MaybeWriteSnapshotFile. rewrite Hcpp.
    unfold bind at 1. rewrite (run_GetFileDescriptorOrDie_refused cpp e w Hopen).
    reflexivity.
  - repeat split.
Qed.

Lemma WriteSnapshot_source_open_refused_witness :
  exists w',
    WriteSnapshot (mkSnapshotWriter (Some "snapshot.cc") (Some "snapshot_blob.bin"))
      (mkStartupData (Some [x01; x02]) 2) locked_world = Exited 1 w' /\
    files w' = files locked_world /\
    log w' = [EvFOpen "snapshot.cc" "wb"].
Proof.
  destruct (WriteSnapshot_source_open_refused
              (mkSnapshotWriter (Some "snapshot.cc") (Some "snapshot_blob.bin"))
              "snapshot.cc" (mkStartupData (Some [x01; x02]) 2) 13 locked_world
              eq_refl eq_refl)
    as (w' & Hrun & Hfiles & _ & _ & Hlog).
  exists w'. split; [exact Hrun|]. split; [exact Hfiles | exact Hlog].
Defined.

Lemma run_MaybeWriteStartupBlob_short (this : SnapshotWriter) (path : string)
    (blob : Vector) (w : World) :
  snapshot_blob_path_ this = Some path ->
  Vector_ok blob ->
  os_fopen w path "wb" = None ->
  (os_fwrite w path (length (start_ blob)) < length (start_ blob))%nat ->
  exists w2,
    MaybeWriteStartupBlob this blob w
    = Exited 1 (set_files (delete path) (add_log (EvRemove path) w2)) /\
    forall q, q <> path -> files w2 !! q = files w !! q.
Proof.
  intros Hpath [Hlen Hmax] Hopen Hshort.
  unfold MaybeWriteStartupBlob. rewrite Hpath.
  unfold bind at 1. rewrite (run_GetFileDescriptorOrDie path w Hopen).
  assert (Hcast : size_t_of_int (Vector_length blob) = Vector_length blob).
  { unfold size_t_of_int. apply Z.mod_small. unfold Vector_length, INT_MAX in *. lia. }
  rewrite Hcast. unfold Vector_length, Vector_begin in *. rewrite Hlen, Nat2Z.id.
  unfold bind at 1. unfold fwrite. cbn [fstream os_fwrite set_files add_log].
  rewrite Nat.min_r by lia.
  unfold bind at 1. unfold fclose, ret.
  replace (Z.of_nat (os_fwrite w path (length (start_ blob)))
           =? Z.of_nat (length (start_ blob))) with false
    by (symmetry; apply Z.eqb_neq; lia).
  cbn [negb]. unfold bind, printf, remove, modify, exit.
  eexists. split; [reflexivity|].
  intros q Hq. unfold set_out. cbn [files].
  rewrite files_emit_other by exact Hq. unfold set_files, add_log. cbn [files].
  now rewrite lookup_insert_ne by congruence.
Qed.

(** X6: the two files are not written as one.  When the source file has
    been written and the binary write then fails, its open refused or its
    [fwrite] short, [WriteSnapshot] exits with status 1 and the source file,
    at another path, stays on disk, complete. *)
Theorem WriteSnapshot_binary_failure_keeps_source (this : SnapshotWriter)
    (cpp bin : string) (blob : StartupData) (bs : list byte) (w : World) :
  snapshot_cpp_path_ this = Some cpp ->
  snapshot_blob_path_ this = Some bin ->
  cpp <> bin ->
  data blob = Some bs ->
  raw_size blob = Z.of_nat (length bs) ->
  raw_size blob <= INT_MAX ->
  os_fopen w cpp "wb" = None ->
  (exists e, os_fopen w bin "wb" = Some e) \/
  (os_fopen w bin "wb" = None /\ (os_fwrite w bin (length bs) < length bs)%nat) ->
  exists w',
    WriteSnapshot this blob w = Exited 1 w' /\
    files w' !! cpp
    = Some (file_prefix_text ++ data_text (body_text bs) (fmt_d (raw_size blob))
            ++ file_suffix_text).
Proof.
  intros Hcpp Hbin Hne Hd Hs Hm Hocpp Hfail.
  destruct (blob_vector_ok blob bs Hd Hs Hm) as [Hok Hstart].
  pose proof (run_MaybeWriteSnapshotFile this cpp _ w Hcpp Hok Hocpp) as Hsrc.
  rewrite Hstart in Hsrc.
  set (w1 := emit (OnPath cpp)
               (file_prefix_text ++ data_text (body_text bs)
                  (fmt_d (Vector_length (blob_vector blob))) ++ file_suffix_text)
               (set_files (insert cpp EmptyString) (add_log (EvFOpen cpp "wb") w))) in *.
  assert (Hfile1 : files w1 !! cpp
                   = Some (file_prefix_text ++ data_text (body_text bs)
                             (fmt_d (raw_size blob)) ++ file_suffix_text)).
  { unfold w1. rewrite files_emit_path. unfold set_files. cbn [files].
    rewrite lookup_insert_eq. reflexivity. }
  unfold WriteSnapshot, bind at 1. rewrite Hsrc.
  destruct Hfail as [[e Hopen] | [Hopen Hshort]].
  - eexists. split.
    + unfold MaybeWriteStartupBlob. rewrite Hbin. unfold bind at 1.
      rewrite (run_GetFileDescriptorOrDie_refused bin e w1 Hopen). reflexivity.
    + exact Hfile1.
  - destruct (run_MaybeWriteStartupBlob_short this bin (blob_vector blob) w1 Hbin Hok Hopen)
      as (w2 & Hrun & Hframe); [rewrite Hstart; exact Hshort|].
    eexists. split; [exact Hrun|].
    unfold set_files, add_log. cbn [files]. rewrite lookup_delete_ne by congruence.
    rewrite (Hframe cpp Hne). exact Hfile1.
Qed.

Lemma WriteSnapshot_binary_failure_keeps_source_witness :
  exists w',
    WriteSnapshot (mkSnapshotWriter (Some "snapshot.cc") (Some "snapshot_blob.bin"))
      (mkStartupData (Some [x01; x02; x03]) 3) full_disk_world = Exited 1 w' /\
    files w' !! "snapshot.cc"
    = Some (file_prefix_text ++ data_text ("1,2,3" ++ nl) "3" ++ file_suffix_text).
Proof.
  assert (Hshort : (os_fwrite full_disk_world "snapshot_blob.bin" (length [x01; x02; x03])
                    < length [x01; x02; x03])%nat) by (vm_compute; lia).
  exact (WriteSnapshot_binary_failure_keeps_source
           (mkSnapshotWriter (Some "snapshot.cc") (Some "snapshot_blob.bin"))
           "snapshot.cc" "snapshot_blob.bin" (mkStartupData (Some [x01; x02; x03]) 3)
           [x01; x02; x03] full_disk_world eq_refl eq_refl ltac:(discriminate)
           eq_refl eq_refl ltac:(unfold INT_MAX; simpl; lia) eq_refl
           (or_intror (conj eq_refl Hshort))).
Defined.

(** * More of the script loader *)

Lemma run_FOpen_rb_fails (filename : string) (e : Z) (w : World) :
  os_fopen w filename "rb" = Some e \/
  (os_fopen w filename "rb" = None /\ files w !! filename = None /\ e = 2) ->
  FOpen filename "rb" w
  = Ret None (set_errno e (add_log (EvFOpen filename "rb") w)).
Proof.
  intros [Hopen | (Hopen & Hfile & ->)]; unfold FOpen; cbn [os_fopen add_log files];
    rewrite Hopen; [reflexivity|]. rewrite Hfile. reflexivity.
Qed.

Lemma run_GetExtraCode_open_fails (filename description : string) (e : Z) (w : World) :
  filename <> EmptyString ->
  os_fopen w filename "rb" = Some e \/
  (os_fopen w filename "rb" = None /\ files w !! filename = None /\ e = 2) ->
  GetExtraCode (Some filename) description w
  = Exited 1
      (emit Stderr ("Failed to open '" ++ filename ++ "': errno " ++ fmt_d e ++ nl)
         (set_errno e
            (add_log (EvFOpen filename "rb")
               (set_out (fun o => o ++ "Loading script for " ++ description ++ ": "
                                    ++ filename ++ nl) w)))).
Proof.
  intros Hname Hfail. unfold GetExtraCode. rewrite (length_nonzero filename Hname).
  unfold bind at 1. unfold printf, modify.
  unfold bind at 1. rewrite (run_FOpen_rb_fails filename e (set_out _ w) Hfail).
  reflexivity.
Qed.

(** X7: when the script cannot be opened, because the open is refused or
    because there is no such file ([errno] 2), [GetExtraCode] exits with
    status 1: the progress line is on standard output, the error stream
    gains the line that names the path and [errno], and no file changes. *)
Theorem GetExtraCode_open_fails (filename description : string) (e : Z) (w : World) :
  filename <> EmptyString ->
  os_fopen w filename "rb" = Some e \/
  (os_fopen w filename "rb" = None /\ files w !! filename = None /\ e = 2) ->
  exists w',
    GetExtraCode (Some filename) description w = Exited 1 w' /\
    out w' = out w ++ "Loading script for " ++ description ++ ": " ++ filename ++ nl /\
    err w' = err w ++ "Failed to open '" ++ filename ++ "': errno " ++ fmt_d e ++ nl /\
    files w' = files w /\
    log w' = (log w ++ [EvFOpen filename "rb"])%list.
Proof.
  intros Hname Hfail. eexists.
  split; [exact (run_GetExtraCode_open_fails filename description e w Hname Hfail)|].
  repeat split.
Qed.

Lemma GetExtraCode_open_fails_witness :
  exists w',
    GetExtraCode (Some "warmup.js") "warm up" script_world = Exited 1 w' /\
    err w' = "Failed to open 'warmup.js': errno 2" ++ nl.
Proof.
  destruct (GetExtraCode_open_fails "warmup.js" "warm up" 2 script_world
              ltac:(discriminate) (or_intror (conj eq_refl (conj eq_refl eq_refl))))
    as (w' & Hrun & _ & Herr & _).
  exists w'. split; [exact Hrun | exact Herr].
Defined.

Lemma run_GetExtraCode_opened (filename description content : string) (w : World) :
  filename <> EmptyString ->
  files w !! filename = Some content ->
  os_fopen w filename "rb" = None ->
  GetExtraCode (Some filename) description w
  = match GetExtraCode_loop (S (String.length content)) filename
            (mkFILE (OnPath filename) 0 false) (String.length content)
            (repeat (heap_fill w) (String.length content) ++ [x00])%list 0
            (add_log (EvFOpen filename "rb")
               (set_out (fun o => o ++ "Loading script for " ++ description ++ ": "
                                    ++ filename ++ nl) w)) with
    | Ret chars w' => Ret (Some chars) w'
    | Exited s w' => Exited s w'
    | Aborted w' => Aborted w'
    | OutOfFuel w' => OutOfFuel w'
    end.
Proof.
  intros Hname Hfile Hopen.
  unfold GetExtraCode. rewrite (length_nonzero filename Hname).
  unfold bind at 1. unfold printf, modify.
  unfold bind at 1.
  rewrite (run_FOpen_rb filename content (set_out _ w) Hfile Hopen).
  unfold bind at 1. unfold fseek_end at 1. cbn [fstream ferror].
  change (files (add_log ?ev (set_out ?f w))) with (files w). rewrite Hfile.
  cbn [default from_option]. unfold id.
  unfold bind at 1. unfold new_char_array.
  unfold ftell, rewind. cbn [fpos fstream].
  rewrite insert_last_repeat.
  unfold bind at 1.
  change (heap_fill (add_log ?ev (set_out ?f w))) with (heap_fill w).
  destruct (GetExtraCode_loop _ _ _ _ _ _ _); reflexivity.
Qed.


(** X9: a script file that exists and is empty gives the buffer that holds
    the byte 0 alone, not the null pointer, and [fread] is not called: the
    result does not depend on what a read would do. *)
Theorem GetExtraCode_empty_file (filename description : string) (w : World) :
  filename <> EmptyString ->
  files w !! filename = Some EmptyString ->
  os_fopen w filename "rb" = None ->
  GetExtraCode (Some filename) description w
  = Ret (Some [x00])
        (add_log (EvFOpen filename "rb")
           (set_out (fun o => o ++ "Loading script for " ++ description ++ ": "
                                ++ filename ++ nl) w)).
Proof.
  intros Hname Hfile Hopen.
  rewrite (run_GetExtraCode_opened filename description EmptyString w Hname Hfile Hopen).
  reflexivity.
Qed.

Lemma GetExtraCode_empty_file_witness :
  exists w', GetExtraCode (Some "empty.js") "embedding" empty_script_world
             = Ret (Some [x00]) w'.
Proof.
  eexists.
  exact (GetExtraCode_empty_file "empty.js" "embedding" empty_script_world
           ltac:(discriminate) eq_refl eq_refl).
Defined.

(** ** The body as a text *)

Lemma all_chars_app (p : ascii -> bool) (a b : string) :
  all_chars p (a ++ b) = all_chars p a && all_chars p b.
Proof.
  induction a as [|x a IH]; [reflexivity|].
  rewrite sapp_cons. simpl. rewrite IH. now rewrite andb_assoc.
Qed.

Lemma body_char_decimal_byte (b : byte) :
  all_chars body_char (decimal (Byte.to_N b)) = true.
Proof. destruct b; vm_compute; reflexivity. Qed.

Lemma body_char_elements (bs : list byte) (i : nat) :
  all_chars body_char (elements_text i bs) = true.
Proof.
  revert i. induction bs as [|b bs IH]; intros i; [reflexivity|].
  cbn [elements_text]. unfold element_text.
  rewrite !all_chars_app, body_char_decimal_byte, IH.
  destruct (low5_set i); destruct i; reflexivity.
Qed.

(** X10: the body [WriteSnapshotData] writes is made of decimal digits,
    commas and line feeds only: no sign, no blank, no other character,
    whatever the bytes of the blob. *)
Theorem WriteSnapshotData_alphabet (path : string) (pos : nat) (e : bool)
    (blob : Vector) (w : World) (before : string) :
  Vector_ok blob ->
  files w !! path = Some before ->
  exists w' text,
    WriteSnapshotData (mkFILE (OnPath path) pos e) blob w = Ret tt w' /\
    files w' !! path = Some (before ++ text) /\
    all_chars body_char text = true.
Proof.
  intros Hok Hfile. eexists _, (body_text (start_ blob)).
  split; [exact (run_WriteSnapshotData _ blob w Hok)|].
  split; [rewrite files_emit_path, Hfile; reflexivity|].
  unfold body_text. rewrite all_chars_app, body_char_elements. reflexivity.
Qed.

Lemma WriteSnapshotData_alphabet_witness :
  exists w' text,
    WriteSnapshotData sample_fp (mkVector blob_0_33 34) sample_world = Ret tt w' /\
    files w' !! "snapshot.cc" = Some (EmptyString ++ text) /\
    all_chars body_char text = true.
Proof.
  assert (Hok : Vector_ok (mkVector blob_0_33 34)).
  { split; [reflexivity | unfold INT_MAX; simpl; lia]. }
  exact (WriteSnapshotData_alphabet "snapshot.cc" 0 false (mkVector blob_0_33 34)
           sample_world EmptyString Hok eq_refl).
Defined.

Lemma map_to_N_inj (bs1 bs2 : list byte) :
  map Byte.to_N bs1 = map Byte.to_N bs2 -> bs1 = bs2.
Proof.
  revert bs2. induction bs1 as [|b1 bs1 IH]; intros [|b2 bs2] H; try discriminate.
  - reflexivity.
  - simpl in H. inversion H as [[Hb Hbs]]. f_equal; [|exact (IH _ Hbs)].
    pose proof (Byte.of_to_N b1) as H1. pose proof (Byte.of_to_N b2) as H2.
    rewrite Hb in H1. congruence.
Qed.

(** X11: two blobs whose bodies come out the same are the same bytes: when
    [WriteSnapshotData] leaves the same text after the same content, the
    two blobs are equal, byte for byte. *)
Theorem WriteSnapshotData_injective (path : string) (fp1 fp2 : FILE)
    (blob1 blob2 : Vector) (w1 w2 w1' w2' : World) (before : string) :
  Vector_ok blob1 -> Vector_ok blob2 ->
  fstream fp1 = OnPath path -> fstream fp2 = OnPath path ->
  files w1 !! path = Some before -> files w2 !! path = Some before ->
  WriteSnapshotData fp1 blob1 w1 = Ret tt w1' ->
  WriteSnapshotData fp2 blob2 w2 = Ret tt w2' ->
  files w1' !! path = files w2' !! path ->
  start_ blob1 = start_ blob2 /\ length_ blob1 = length_ blob2.
Proof.
  intros Hok1 Hok2 Hs1 Hs2 Hf1 Hf2 Hrun1 Hrun2 Hsame.
  rewrite (run_WriteSnapshotData fp1 blob1 w1 Hok1) in Hrun1.
  rewrite (run_WriteSnapshotData fp2 blob2 w2 Hok2) in Hrun2.
  inversion Hrun1 as [H1]. inversion Hrun2 as [H2]. subst w1' w2'.
  rewrite Hs1, Hs2, !files_emit_path, Hf1, Hf2 in Hsame. simpl in Hsame.
  inversion Hsame as [Htext]. apply (inj (String.app before)) in Htext.
  assert (Hbytes : start_ blob1 = start_ blob2).
  { apply map_to_N_inj.
    pose proof (decode_body_text (start_ blob1)) as D1.
    pose proof (decode_body_text (start_ blob2)) as D2.
    rewrite Htext in D1. congruence. }
  split; [exact Hbytes|].
  destruct Hok1 as [L1 _]. destruct Hok2 as [L2 _]. rewrite L1, L2, Hbytes. reflexivity.
Qed.

Lemma WriteSnapshotData_injective_witness :
  start_ (mkVector [x01; x02] 2) = start_ (mkVector [x01; x02] 2) /\
  length_ (mkVector [x01; x02] 2) = length_ (mkVector [x01; x02] 2).
Proof.
  assert (Hok : Vector_ok (mkVector [x01; x02] 2)).
  { split; [reflexivity | unfold INT_MAX; simpl; lia]. }
  exact (WriteSnapshotData_injective "snapshot.cc" sample_fp sample_fp
           (mkVector [x01; x02] 2) (mkVector [x01; x02] 2)
           sample_world sample_world _ _ EmptyString
           Hok Hok eq_refl eq_refl eq_refl eq_refl eq_refl eq_refl eq_refl).
Defined.

(** * More of the driver *)

(** X12: without a warm-up script (fewer than three arguments, or an empty
    third one) the blob [main] goes on with is the one
    [CreateSnapshotDataBlob] returned for the embedding script:
    [WarmUpSnapshotDataBlob] is not called. *)
Theorem main_build_blob_without_warmup (E : Engine) (argv : list string) (w : World) :
  Z.of_nat (length argv) < 3 \/ argv_at argv 2 = EmptyString ->
  main_build_blob E argv w
  = (embed_script <- GetExtraCode (if Z.of_nat (length argv) >=? 2
                                   then Some (argv_at argv 1) else None) "embedding" ;;
     CreateSnapshotDataBlob E embed_script) w.
Proof.
  intros Hno. unfold main_build_blob, bind, delete_array, ret.
  destruct (GetExtraCode _ "embedding" w) as [es w1| | |]; try reflexivity.
  destruct (CreateSnapshotDataBlob E es w1) as [blob w2| | |]; try reflexivity.
  assert (Hnone : GetExtraCode (if Z.of_nat (length argv) >=? 3
                                then Some (argv_at argv 2) else None) "warm up" w2
                  = Ret None w2).
  { destruct Hno as [Hlt | Hempty].
    - replace (Z.of_nat (length argv) >=? 3) with false; [reflexivity|].
      symmetry. rewrite Z.geb_leb. apply Z.leb_gt. lia.
    - rewrite Hempty. destruct (Z.of_nat (length argv) >=? 3); reflexivity. }
  rewrite Hnone. reflexivity.
Qed.

Lemma main_build_blob_without_warmup_witness :
  main_build_blob idle_engine ["mksnapshot"; "embed.js"; EmptyString] script_world
  = (embed_script <- GetExtraCode (Some "embed.js") "embedding" ;;
     CreateSnapshotDataBlob idle_engine embed_script) script_world.
Proof.
  exact (main_build_blob_without_warmup idle_engine ["mksnapshot"; "embed.js"; EmptyString]
           script_world (or_intror eq_refl)).
Defined.

(** X13: when [main] returns, it returns 1 if the command line was wrong
    (the parser's result is positive, or more than three arguments are left)
    and help was not asked for, and 0 in every other case, help included. *)
Theorem main_return_code (E : Engine) (argv : list string) (w w' : World) (code : Z) :
  main E argv w = Ret code w' ->
  exists result argv' flags w1,
    (set_FLAG_predictable E true ;; SetFlagsFromCommandLine E argv) w
    = Ret (result, argv', flags) w1 /\
    code = if ((result >? 0) || (Z.of_nat (length argv') >? 3)) && negb (FLAG_help flags)
           then 1 else 0.
Proof.
  unfold main. intros Hmain. unfold bind in Hmain |- *.
  destruct (set_FLAG_predictable E true w) as [[] wa| | |]; try discriminate.
  destruct (SetFlagsFromCommandLine E argv wa) as [[[result argv'] flags] w1| | |];
    try discriminate.
  exists result, argv', flags, w1. split; [reflexivity|].
  unfold main_after_flags in Hmain.
  destruct ((result >? 0) || (Z.of_nat (length argv') >? 3)) eqn:Hbad;
    destruct (FLAG_help flags) eqn:Hhelp; cbn [orb andb negb] in Hmain |- *.
  1-3: unfold bind, printf, modify, ret in Hmain;
       destruct (PrintHelp E _) as [[] wb| | |]; try discriminate;
       inversion Hmain; reflexivity.
  unfold bind in Hmain.
  destruct (CpuFeatures_Probe E true w1) as [[] wc| | |]; try discriminate.
  destruct (InitializeICUDefaultLocation E _ wc) as [[] wd| | |]; try discriminate.
  destruct (CreateDefaultPlatform E wd) as [[] we| | |]; try discriminate.
  destruct (InitializePlatform E we) as [[] wf| | |]; try discriminate.
  destruct (Initialize E wf) as [[] wg| | |]; try discriminate.
  destruct (main_build_blob E argv' wg) as [blob wh| | |]; try discriminate.
  destruct (CHECK _ wh) as [[] wi| | |]; try discriminate.
  destruct (WriteSnapshot _ blob wi) as [[] wj| | |]; try discriminate.
  unfold delete_array, ret in Hmain.
  destruct (Dispose E wj) as [[] wk| | |]; try discriminate.
  destruct (ShutdownPlatform E wk) as [[] wl| | |]; try discriminate.
  inversion Hmain. reflexivity.
Qed.

Lemma main_return_code_witness :
  exists result argv' flags w1,
    (set_FLAG_predictable idle_engine true ;;
     SetFlagsFromCommandLine idle_engine ["mksnapshot"]) sample_world
    = Ret (result, argv', flags) w1 /\
    0 = if ((result >? 0) || (Z.of_nat (length argv') >? 3)) && negb (FLAG_help flags)
        then 1 else 0.
Proof.
  exact (main_return_code idle_engine ["mksnapshot"] sample_world sample_world 0 eq_refl).
Defined.

(** X14: the output paths come from the two flags alone.  When neither
    [--startup_src] nor [--startup_blob] is given and the stages have built a
    blob whose buffer is not null, [main] writes nothing: from the world the
    stages left it goes straight to the disposal of the engine and
    returns 0. *)
Theorem main_without_output_flags (E : Engine) (result : Z) (argv : list string)
    (flags : Flags) (blob : StartupData) (bs : list byte) (w1 w2 w3 : World) :
  (result >? 0) || (Z.of_nat (length argv) >? 3) || FLAG_help flags = false ->
  FLAG_startup_src flags = None ->
  FLAG_startup_blob flags = None ->
  (CpuFeatures_Probe E true ;;
   InitializeICUDefaultLocation E (argv_at argv 0) ;;
   CreateDefaultPlatform E ;;
   InitializePlatform E ;;
   Initialize E) w1 = Ret tt w2 ->
  main_build_blob E argv w2 = Ret blob w3 ->
  data blob = Some bs ->
  main_after_flags E result argv flags w1
  = (Dispose E ;; ShutdownPlatform E ;; ret 0) w3.
Proof.
  intros Husage Hsrc Hbin Hinit Hbuild Hdata.
  unfold main_after_flags. rewrite Husage, Hsrc, Hbin.
  unfold bind in Hinit |- *.
  destruct (CpuFeatures_Probe E true w1) as [[] wc| | |]; try discriminate.
  destruct (InitializeICUDefaultLocation E (argv_at argv 0) wc) as [[] wd| | |];
    try discriminate.
  destruct (CreateDefaultPlatform E wd) as [[] we| | |]; try discriminate.
  destruct (InitializePlatform E we) as [[] wf| | |]; try discriminate.
  destruct (Initialize E wf) as [[] wg| | |]; try discriminate.
  inversion Hinit; subst wg; clear Hinit.
  rewrite Hbuild, Hdata. reflexivity.
Qed.

Lemma main_without_output_flags_witness :
  main_after_flags idle_engine 0 ["mksnapshot"] (mkFlags false None None) stale_world
  = Ret 0 stale_world.
Proof.
  exact (main_without_output_flags idle_engine 0 ["mksnapshot"] (mkFlags false None None)
           (mkStartupData (Some []) 0) [] stale_world stale_world stale_world
           eq_refl eq_refl eq_refl eq_refl eq_refl eq_refl).
Defined.

(** ** The rows of the body *)

Lemma lines_not_nil (s : string) : lines s <> [].
Proof.
  induction s as [|c s IH]; simpl; [discriminate|].
  destruct (Ascii.eqb c "010"%char); [discriminate|].
  destruct (lines s); [contradiction | discriminate].
Qed.

Lemma lines_plain_app (d s : string) :
  plain d = true ->
  lines (d ++ s) = match lines s with
                   | l :: ls => (d ++ l) :: ls
                   | [] => [d]
                   end.
Proof.
  intros Hd. induction d as [|x d IH].
  - change (EmptyString ++ s) with s. destruct (lines s) eqn:El; [|reflexivity].
    destruct (lines_not_nil s El).
  - rewrite sapp_cons. simpl in Hd. cbn [lines].
    apply andb_prop in Hd as [Hx Hd]. apply andb_prop in Hx as [Hx _].
    apply negb_true_iff in Hx. unfold is_sep in Hx.
    apply orb_false_elim in Hx as [_ Hlf]. rewrite Hlf, (IH Hd).
    destruct (lines s); reflexivity.
Qed.

Lemma lines_lf (s : string) : lines (String "010"%char s) = EmptyString :: lines s.
Proof. reflexivity. Qed.

Lemma fields_plain (d : string) : plain d = true -> fields d = [d].
Proof.
  induction d as [|x d IH]; [reflexivity|]. simpl. intros Hd.
  apply andb_prop in Hd as [Hx Hd]. apply andb_prop in Hx as [Hx _].
  apply negb_true_iff in Hx. rewrite Hx, (IH Hd). reflexivity.
Qed.

Lemma decode_number_then (d : string) (n : N) (l : string) (vs : list N) :
  plain d = true -> parse_uint d = Some n ->
  l = EmptyString \/ (exists r, l = String ","%char r) ->
  decode l = Some vs ->
  decode (d ++ l) = Some (n :: vs).
Proof.
  intros Hd Hn [-> | [r ->]] Hl.
  - rewrite sapp_empty_r. unfold decode. rewrite (fields_plain d Hd).
    cbn [parse_fields]. rewrite (strip_plain d Hd).
    destruct d as [|x d]; [discriminate|]. rewrite Hn.
    inversion Hl. reflexivity.
  - rewrite (decode_number d n ","%char r Hd Hn eq_refl), Hl. reflexivity.
Qed.

Lemma low5_set_next (j : nat) :
  (if low5_set j then S j mod 32 = 0 else S j mod 32 = j mod 32 + 1)%nat.
Proof.
  pose proof (low5_set_div j) as Hdiv.
  pose proof (Nat.div_mod_eq j 32) as Hj.
  pose proof (Nat.mod_upper_bound j 32 ltac:(lia)) as Hjb.
  pose proof (Nat.div_mod_eq (S j) 32) as Hs.
  pose proof (Nat.mod_upper_bound (S j) 32 ltac:(lia)) as Hsb.
  destruct (low5_set j); lia.
Qed.

Lemma rows_elements (bs : list byte) :
  forall i : nat,
    exists l0 ls,
      lines (elements_text (S i) bs ++ nl) = l0 :: ls /\
      (l0 = EmptyString \/ exists r, l0 = String ","%char r) /\
      (exists vs, decode l0 = Some vs /\ (length vs <= 31 - S i mod 32)%nat) /\
      Forall (row_ok 32) ls.
Proof.
  induction bs as [|b bs IH]; intros i.
  - exists EmptyString, [EmptyString]. split; [reflexivity|]. split; [now left|].
    split; [exists []; split; [reflexivity | simpl; lia]|].
    constructor; [|constructor]. exists []. split; [reflexivity | simpl; lia].
  - destruct (IH (S i)) as (l0 & ls & Hlines & Hshape & (vs & Hdec & Hlen) & Hrest).
    destruct (decimal_byte_ok b) as [Hp Hn].
    pose proof (Nat.mod_upper_bound (S i) 32 ltac:(lia)) as Hb.
    pose proof (Nat.mod_upper_bound (S (S i)) 32 ltac:(lia)) as Hb'.
    pose proof (low5_set_next (S i)) as Hnext.
    assert (Hrow : decode (String ","%char (decimal (Byte.to_N b) ++ l0))
                   = Some (Byte.to_N b :: vs)).
    { rewrite decode_sep by reflexivity.
      exact (decode_number_then _ _ l0 vs Hp Hn Hshape Hdec). }
    assert (Htail : lines (String ","%char (decimal (Byte.to_N b) ++
                             elements_text (S (S i)) bs ++ nl))
                    = String ","%char (decimal (Byte.to_N b) ++ l0) :: ls).
    { cbn [lines]. change (Ascii.eqb ","%char "010"%char) with false. cbv iota.
      rewrite (lines_plain_app _ _ Hp), Hlines. reflexivity. }
    cbn [elements_text]. unfold element_text.
    destruct (low5_set (S i)) eqn:Hlow; rewrite !sapp_assoc.
    + change (nl ++ ?x) with (String "010"%char x).
      change ("," ++ ?x) with (String ","%char x).
      rewrite lines_lf, Htail.
      exists EmptyString, (String ","%char (decimal (Byte.to_N b) ++ l0) :: ls).
      split; [reflexivity|]. split; [now left|].
      split; [exists []; split; [reflexivity | simpl; lia]|].
      constructor; [|exact Hrest].
      exists (Byte.to_N b :: vs). split; [exact Hrow | cbn [length]; lia].
    + change (EmptyString ++ ?x) with x.
      change ("," ++ ?x) with (String ","%char x).
      rewrite Htail.
      exists (String ","%char (decimal (Byte.to_N b) ++ l0)), ls.
      split; [reflexivity|]. split; [right; eexists; reflexivity|].
      split; [|exact Hrest].
      exists (Byte.to_N b :: vs). split; [exact Hrow | cbn [length]; lia].
Qed.

(** X15: cut at its line feeds, the body [WriteSnapshotData] writes has no
    line of more than 32 values, and its first line has 31 at most. *)
Theorem WriteSnapshotData_rows (path : string) (pos : nat) (e : bool)
    (blob : Vector) (w : World) (before : string) :
  Vector_ok blob ->
  files w !! path = Some before ->
  exists w' text first rest,
    WriteSnapshotData (mkFILE (OnPath path) pos e) blob w = Ret tt w' /\
    files w' !! path = Some (before ++ text) /\
    lines text = first :: rest /\
    row_ok 31 first /\
    Forall (row_ok 32) rest.
Proof.
  intros Hok Hfile.
  assert (Hrows : exists first rest,
             lines (body_text (start_ blob)) = first :: rest /\
             row_ok 31 first /\ Forall (row_ok 32) rest).
  { unfold body_text. destruct (start_ blob) as [|b bs].
    - exists EmptyString, [EmptyString]. split; [reflexivity|].
      split; [exists []; split; [reflexivity | simpl; lia]|].
      constructor; [|constructor]. exists []. split; [reflexivity | simpl; lia].
    - destruct (rows_elements bs 0) as (l0 & ls & Hlines & Hshape & (vs & Hdec & Hlen) & Hrest).
      destruct (decimal_byte_ok b) as [Hp Hn].
      cbn [elements_text]. unfold element_text.
      change (low5_set 0) with false. cbv iota.
      change (EmptyString ++ ?x) with x. rewrite !sapp_assoc.
      change (EmptyString ++ ?x) with x.
      rewrite (lines_plain_app _ _ Hp), Hlines.
      exists (decimal (Byte.to_N b) ++ l0), ls. split; [reflexivity|].
      split; [|exact Hrest].
      exists (Byte.to_N b :: vs).
      split; [exact (decode_number_then _ _ l0 vs Hp Hn Hshape Hdec)|].
      change (1 mod 32)%nat with 1%nat in Hlen. simpl. lia. }
  destruct Hrows as (first & rest & Hlines & Hfirst & Hrest).
  eexists _, (body_text (start_ blob)), first, rest.
  split; [exact (run_WriteSnapshotData _ blob w Hok)|].
  split; [rewrite files_emit_path, Hfile; reflexivity|].
  split; [exact Hlines|]. split; [exact Hfirst | exact Hrest].
Qed.

Lemma WriteSnapshotData_rows_witness :
  exists w' text first rest,
    WriteSnapshotData sample_fp (mkVector blob_0_33 34) sample_world = Ret tt w' /\
    files w' !! "snapshot.cc" = Some (EmptyString ++ text) /\
    lines text = first :: rest /\
    row_ok 31 first /\
    Forall (row_ok 32) rest.
Proof.
  assert (Hok : Vector_ok (mkVector blob_0_33 34)).
  { split; [reflexivity | unfold INT_MAX; simpl; lia]. }
  exact (WriteSnapshotData_rows "snapshot.cc" 0 false (mkVector blob_0_33 34)
           sample_world EmptyString Hok eq_refl).
Defined.
